(** * Multi-branch pipeline project: the config.xml generator

    A shallow embedding of
    [jenkins_jobs/modules/project_pipeline_multibranch.py]
    (class [PipelineMultiBranch]) and the properties of the document it
    builds.

    The Python code works on three kinds of data:
    - the job configuration, a tree of YAML values (mappings, sequences,
      strings, booleans, integers, null);
    - [xml.etree.ElementTree] elements, built by [XML.SubElement] and by
      assignments to [.attrib] and [.text];
    - the process-wide logger and the random source behind [uuid.uuid4].

    Configuration values are the inductive type [pyval]; elements are the
    record [element]; the logger and the random source are threaded through
    a state-and-exception monad [M].  The function [git] imported from the
    [scm] module is not part of the file: it is a parameter of the
    development.

    Conventions of the embedding:
    - an element is a value; where the Python code attaches an empty element
      to its parent and fills it afterwards, the element is filled first and
      attached then, in the order of the [XML.SubElement] calls, so that the
      children of every node are in the order the code creates them;
    - look-ups, log messages, the draw of the identifier and the call of
      [git] happen in the order of the Python statements, and the first
      exception ends the run;
    - strings are byte strings; floating point values do not occur.  On
      ASCII strings [lower] is [str.lower] and the items of [chars] are the
      characters of the string; what is stated about a lowercased text or
      about the characters of a string is stated for ASCII strings. *)

From Stdlib Require Import String Ascii List Bool Arith ZArith Lia.
From Stdlib Require Import DecimalString.
Import ListNotations.
Local Open Scope string_scope.
Local Open Scope list_scope.
Set Warnings "-register-all".

(** ** Configuration values *)

(** A Python mapping is kept as an association list: the order of the
    bindings is the iteration order of the dict, and the first binding of a
    key is the one a lookup sees. *)
Inductive pyval : Type :=
| PNone
| PBool (b : bool)
| PInt (z : Z)
| PStr (s : string)
| PList (l : list pyval)
| PDict (d : list (string * pyval)).

Fixpoint dict_lookup (k : string) (d : list (string * pyval)) : option pyval :=
  match d with
  | [] => None
  | (k', v) :: d' => if String.eqb k k' then Some v else dict_lookup k d'
  end.

Definition dict_has (k : string) (d : list (string * pyval)) : bool :=
  match dict_lookup k d with Some _ => true | None => false end.

(** The keys of a mapping in iteration order, each once. *)
Definition dict_keys (d : list (string * pyval)) : list string :=
  nodup string_dec (map fst d).

(** ** Exceptions and results *)

Inductive exn : Type :=
| KeyError (key : string)          (* d[key] on a dict without key *)
| TypeError                       (* operation on a value of the wrong type *)
| AttributeError (attr : string)  (* v.attr on a value without attr *)
| CollaboratorError (what : string). (* anything raised inside scm.git *)

Inductive result (A : Type) : Type :=
| Ok (a : A)
| Raise (e : exn).
Arguments Ok {A} a.
Arguments Raise {A} e.

(** ** The Python operations the module applies to configuration values *)

Fixpoint substring_of (k s : string) : bool :=
  String.prefix k s ||
  match s with
  | EmptyString => false
  | String _ s' => substring_of k s'
  end.

Definition is_str (k : string) (v : pyval) : bool :=
  match v with PStr s => String.eqb s k | _ => false end.

(** [k in v] for a string literal [k]. *)
Definition py_in (k : string) (v : pyval) : result bool :=
  match v with
  | PDict d => Ok (dict_has k d)
  | PList l => Ok (existsb (is_str k) l)
  | PStr s => Ok (substring_of k s)
  | PNone | PBool _ | PInt _ => Raise TypeError
  end.

(** [v[k]] for a string literal [k]. *)
Definition py_getitem (v : pyval) (k : string) : result pyval :=
  match v with
  | PDict d =>
      match dict_lookup k d with
      | Some x => Ok x
      | None => Raise (KeyError k)
      end
  | _ => Raise TypeError
  end.

(** [v.get(k, default)]: only mappings have the method. *)
Definition py_get (v : pyval) (k : string) (default : pyval) : result pyval :=
  match v with
  | PDict d =>
      match dict_lookup k d with
      | Some x => Ok x
      | None => Ok default
      end
  | _ => Raise (AttributeError "get")
  end.

Fixpoint chars (s : string) : list pyval :=
  match s with
  | EmptyString => []
  | String c s' => PStr (String c EmptyString) :: chars s'
  end.

(** The items a [for] loop over [v] visits. *)
Definition py_iter (v : pyval) : result (list pyval) :=
  match v with
  | PList l => Ok l
  | PDict d => Ok (map PStr (dict_keys d))
  | PStr s => Ok (chars s)
  | PNone | PBool _ | PInt _ => Raise TypeError
  end.

Definition isinstance_dict (v : pyval) : bool :=
  match v with PDict _ => true | _ => false end.

Definition lower_ascii (c : ascii) : ascii :=
  let n := nat_of_ascii c in
  if ((65 <=? n) && (n <=? 90))%nat then ascii_of_nat (n + 32) else c.

(** [s.lower()] on a byte string. *)
Fixpoint lower (s : string) : string :=
  match s with
  | EmptyString => EmptyString
  | String c s' => String (lower_ascii c) (lower s')
  end.

(** [is_ascii s]: every byte of [s] is below 128, so that the bytes of [s]
    are its characters and [lower s] is its lowercase. *)
Fixpoint is_ascii (s : string) : bool :=
  match s with
  | EmptyString => true
  | String c s' => (nat_of_ascii c <? 128)%nat && is_ascii s'
  end.

(** [str(v)].  The [repr] of a list or of a dict depends on the interpreter;
    it only reaches log messages and texts derived from containers, and is
    left as the parameter [container_repr]. *)
Definition py_str (container_repr : pyval -> string) (v : pyval) : string :=
  match v with
  | PNone => "None"
  | PBool true => "True"
  | PBool false => "False"
  | PInt z => NilZero.string_of_int (Z.to_int z)
  | PStr s => s
  | PList _ | PDict _ => container_repr v
  end.

(** ** ElementTree elements *)

(** [text] holds whatever object was assigned to [.text]; it is [None]
    ([PNone]) in an element without text. *)
Inductive element : Type :=
  mkElement {
    tag : string;
    attrib : list (string * string);
    text : pyval;
    children : list element
  }.

(** [XML.Element(tag)] *)
Definition Element (t : string) : element := mkElement t [] PNone [].

Fixpoint attrib_set (k v : string) (a : list (string * string))
  : list (string * string) :=
  match a with
  | [] => [(k, v)]
  | (k', v') :: a' =>
      if String.eqb k k' then (k, v) :: a' else (k', v') :: attrib_set k v a'
  end.

(** [e.attrib[k] = v] *)
Definition set_attrib (k v : string) (e : element) : element :=
  mkElement (tag e) (attrib_set k v (attrib e)) (text e) (children e).

(** [e.text = v] *)
Definition set_text (v : pyval) (e : element) : element :=
  mkElement (tag e) (attrib e) v (children e).

(** [parent.append(child)] *)
Definition append (child parent : element) : element :=
  mkElement (tag parent) (attrib parent) (text parent)
            (children parent ++ [child]).

(** [parent.find(t)] for a plain tag [t]: the first direct child with that
    tag. *)
Definition find (t : string) (parent : element) : option element :=
  List.find (fun c => String.eqb (tag c) t) (children parent).

(** Truth value of the result of [find]: [None] is false, and an element is
    true exactly when it has children ([Element.__nonzero__]). *)
Definition truth (o : option element) : bool :=
  match o with
  | None => false
  | Some e => negb (Nat.eqb (List.length (children e)) 0)
  end.

Fixpoint remove_nth (n : nat) (l : list element) : list element :=
  match n, l with
  | _, [] => []
  | O, _ :: l' => l'
  | S n', x :: l' => x :: remove_nth n' l'
  end.

Fixpoint replace_nth (n : nat) (y : element) (l : list element) : list element :=
  match n, l with
  | _, [] => []
  | O, _ :: l' => y :: l'
  | S n', x :: l' => x :: replace_nth n' y l'
  end.

(** ** The logger and the random source *)

Record world : Type :=
  mkWorld {
    warnings : list string;      (* messages passed to logger.warn, oldest first *)
    entropy : nat -> string      (* the values uuid4 will return, in order *)
  }.

Definition M (A : Type) : Type := world -> result A * world.

Definition ret {A} (a : A) : M A := fun w => (Ok a, w).

Definition bind {A B} (m : M A) (f : A -> M B) : M B :=
  fun w =>
    match m w with
    | (Ok a, w') => f a w'
    | (Raise e, w') => (Raise e, w')
    end.

Definition lift {A} (r : result A) : M A := fun w => (r, w).

(** [logger.warn(msg)] *)
Definition warn (msg : string) : M unit :=
  fun w => (Ok tt, mkWorld (warnings w ++ [msg]) (entropy w)).

(** [str(uuid.uuid4())] *)
Definition uuid4 : M string :=
  fun w => (Ok (entropy w 0), mkWorld (warnings w) (fun n => entropy w (S n))).

Declare Scope py_scope.
Delimit Scope py_scope with py.
Notation "x <- c1 ;; c2" := (bind c1 (fun x => c2))
  (at level 61, c1 at next level, right associativity) : py_scope.
Notation "c1 ;; c2" := (bind c1 (fun _ => c2))
  (at level 61, right associativity) : py_scope.
Local Open Scope py_scope.

(** ** The project type [PipelineMultiBranch] *)

Section PipelineMultiBranch.

(** [from scm import git]: called as [git(self, temp_xml, data)], it fills
    the element it is given from the git source spec.  The result is the
    element as the call leaves it ([inl]), or a description of the
    exception the call raised ([inr]). *)
Variable git : element -> pyval -> element + string.

Variable container_repr : pyval -> string.

Local Abbreviation str := (py_str container_repr).

(** [XML.SubElement(parent, t).text = v] *)
Definition SubElement_text (t : string) (v : pyval) (parent : element)
  : element :=
  append (set_text v (Element t)) parent.

(** *** generate_default_source_strategy (lines 288-294) *)
Definition generate_default_source_strategy (xml_parent : element)
  : M element :=
  let strategy :=
    set_attrib "class" "jenkins.branch.DefaultBranchPropertyStrategy"
      (Element "strategy") in
  let strategy_properties :=
    set_attrib "class" "empty-list" (Element "properties") in
  ret (append (append strategy_properties strategy) xml_parent).

(** The element [a] that holds one [NoTriggerBranchProperty]
    (lines 307-309, 321-323, 332-334). *)
Definition prop_a : element :=
  append (Element "jenkins.branch.NoTriggerBranchProperty")
    (set_attrib "class" "jenkins.branch.BranchProperty-array" (Element "a")).

(** The body of the loop over [data['exceptions']] (lines 317-325). *)
Definition named_exception_step (named_exceptions_a : element)
           (exception : pyval) : M element :=
  warn ("Exception found for branch " ++ str exception) ;;
  let named_exception_props :=
    append prop_a
      (set_attrib "class" "java.util.Arrays$ArrayList" (Element "props")) in
  let named_exception :=
    append named_exception_props
      (Element "jenkins.branch.NamedExceptionsBranchPropertyStrategy_-Named") in
  let named_exception :=
    SubElement_text "name" exception named_exception in
  ret (append named_exception named_exceptions_a).

Fixpoint for_each {A B} (body : A -> B -> M A) (items : list B) (acc : A)
  : M A :=
  match items with
  | [] => ret acc
  | x :: items' => acc' <- body acc x ;; for_each body items' acc'
  end.

(** *** generate_source_strategy (lines 296-334) *)
Definition generate_source_strategy (xml_parent : element) (data : pyval)
  : M element :=
  has_exceptions <- lift (py_in "exceptions" data) ;;
  if has_exceptions : bool then
    warn "contains git strategy exceptions" ;;
    let strategy :=
      set_attrib "class"
        "jenkins.branch.NamedExceptionsBranchPropertyStrategy"
        (Element "strategy") in
    let strategy_properties :=
      append prop_a
        (set_attrib "class" "java.util.Arrays$ArrayList"
           (Element "defaultProperties")) in
    let strategy := append strategy_properties strategy in
    let named_exceptions :=
      set_attrib "class" "java.util.Arrays$ArrayList"
        (Element "namedExceptions") in
    let named_exceptions_a :=
      set_attrib "class"
        "jenkins.branch.NamedExceptionsBranchPropertyStrategy$Named-array"
        (Element "a") in
    exceptions <- lift (py_getitem data "exceptions") ;;
    items <- lift (py_iter exceptions) ;;
    named_exceptions_a <- for_each named_exception_step items
                                   named_exceptions_a ;;
    let named_exceptions := append named_exceptions_a named_exceptions in
    let strategy := append named_exceptions strategy in
    ret (append strategy xml_parent)
  else
    warn "contains simple git strategy" ;;
    let strategy :=
      set_attrib "class" "jenkins.branch.DefaultBranchPropertyStrategy"
        (Element "strategy") in
    let strategy_properties :=
      append prop_a
        (set_attrib "class" "java.util.Arrays$ArrayList"
           (Element "properties")) in
    ret (append (append strategy_properties strategy) xml_parent).

(** *** generate_git_scm_xml (lines 256-286)

    [temp_xml] is appended to [git_source] and handed to [git], which
    fills it in place; [git] holds no reference to [git_source], so when it
    returns [temp_xml] is still the child at the position where it was
    appended, and that child is the one [git_source.remove(temp_xml)]
    takes out ([remove] compares elements by identity). *)
Definition generate_git_scm_xml (xml_parent : element) (data : pyval)
  : M element :=
  let git_source :=
    set_attrib "plugin" "git"
      (set_attrib "class" "jenkins.plugins.git.GitSCMSource"
         (Element "source")) in
  ignore_on_push <-
    lift (py_get data "ignore-on-push-notifications" (PBool true)) ;;
  id <- uuid4 ;;
  let git_element_list := [("id", PStr id)] in
  url <- lift (py_getitem data "url") ;;
  let git_element_list := git_element_list ++ [("remote", url)] in
  credentials_id <- lift (py_getitem data "credentials-id") ;;
  let git_element_list :=
    git_element_list ++ [("credentialsId", credentials_id)] in
  let git_element_list :=
    git_element_list ++
    [("ignoreOnPushNotifications", PStr (lower (str ignore_on_push)))] in
  includes <- lift (py_get data "includes" (PStr "*")) ;;
  let git_element_list := git_element_list ++ [("includes", includes)] in
  has_excludes <- lift (py_in "excludes" data) ;;
  st <- (if has_excludes : bool then
           excludes <- lift (py_getitem data "excludes") ;;
           ret (git_element_list ++ [("excludes", excludes)], git_source)
         else
           ret (git_element_list, append (Element "excludes") git_source)) ;;
  let '(git_element_list, git_source) := st in
  let git_source :=
    fold_left (fun gs item => SubElement_text (fst item) (snd item) gs)
              git_element_list git_source in
  let temp_pos := List.length (children git_source) in
  let git_source := append (Element "temp-git") git_source in
  temp_xml <- lift (match git (Element "temp-git") data with
                    | inl t => Ok t
                    | inr what => Raise (CollaboratorError what)
                    end) ;;
  let git_source :=
    mkElement (tag git_source) (attrib git_source) (text git_source)
              (replace_nth temp_pos temp_xml (children git_source)) in
  let temp_xml_scm := find "scm" temp_xml in
  let git_source :=
    if truth temp_xml_scm &&
       truth (match temp_xml_scm with
              | Some scm => find "extensions" scm
              | None => None
              end)
    then
      match temp_xml_scm with
      | Some scm =>
          match find "extensions" scm with
          | Some temp_extensions => append temp_extensions git_source
          | None => git_source
          end
      | None => git_source
      end
    else git_source in
  let git_source :=
    mkElement (tag git_source) (attrib git_source) (text git_source)
              (remove_nth temp_pos (children git_source)) in
  ret (append git_source xml_parent).

(** *** root_xml (lines 144-254) *)

(** Lines 156-174: the [properties] element. *)
Definition root_xml_properties (project_def : pyval) : M element :=
  let properties := Element "properties" in
  let folder_credentials_provider :=
    set_attrib "plugin" "cloudbees-folder"
      (Element "com.cloudbees.hudson.plugins.folder.properties.FolderCredentialsProvider_-FolderCredentialsProperty") in
  let domain_credentials_map :=
    set_attrib "class" "hudson.util.CopyOnWriteMap$Hash"
      (Element "domainCredentialsMap") in
  let entry := Element "entry" in
  let domain :=
    set_attrib "plugin" "credentials"
      (Element "com.cloudbees.plugins.credentials.domains.Domain") in
  let domain := append (Element "specifications") domain in
  let entry := append domain entry in
  let entry :=
    append (Element "java.util.concurrent.CopyOnWriteArrayList") entry in
  let domain_credentials_map := append entry domain_credentials_map in
  let folder_credentials_provider :=
    append domain_credentials_map folder_credentials_provider in
  let properties := append folder_credentials_provider properties in
  has_env <- lift (py_in "env-properties" project_def) ;;
  if has_env : bool then
    let env_properties_parent :=
      set_attrib "plugin" "cloudbees-folders-plus"
        (Element "com.cloudbees.hudson.plugins.folder.properties.EnvVarsFolderProperty") in
    env <- lift (py_getitem project_def "env-properties") ;;
    let env_properties := set_text env (Element "properties") in
    ret (append (append env_properties env_properties_parent) properties)
  else ret properties.

(** Lines 176-188: the [views] element. *)
Definition root_xml_views : element :=
  let views := Element "views" in
  let allView := Element "hudson.model.AllView" in
  let owner :=
    set_attrib "reference" "../../.."
      (set_attrib "class"
         "org.jenkinsci.plugins.workflow.multibranch.WorkflowMultiBranchProject"
         (Element "owner")) in
  let allView := append owner allView in
  let allView := SubElement_text "name" (PStr "All") allView in
  let allView := SubElement_text "filterExecutors" (PStr "false") allView in
  let allView := SubElement_text "filterQueue" (PStr "false") allView in
  let all_view_properties :=
    set_attrib "class" "hudson.model.View$PropertyList"
      (Element "properties") in
  let allView := append all_view_properties allView in
  append allView views.

(** Lines 190-200: [viewsTabBar], [healthMetrics] and [icon]. *)
Definition root_xml_views_tab_bar : element :=
  set_attrib "class" "hudson.views.DefaultViewsTabBar" (Element "viewsTabBar").

Definition root_xml_health_metrics : element :=
  append
    (set_attrib "plugin" "cloudbees-folder"
       (Element "com.cloudbees.hudson.plugins.folder.health.WorstChildHealthMetric"))
    (Element "healthMetrics").

Definition root_xml_icon : element :=
  set_attrib "plugin" "cloudbees-folder"
    (set_attrib "class"
       "com.cloudbees.hudson.plugins.folder.icons.StockFolderIcon"
       (Element "icon")).

(** Lines 202-212: the [orphanedItemStrategy] element. *)
Definition root_xml_orphaned_item_strategy (project_def : pyval) : M element :=
  let orphaned_item_strategy :=
    set_attrib "plugin" "cloudbees-folder"
      (set_attrib "class"
         "com.cloudbees.hudson.plugins.folder.computed.DefaultOrphanedItemStrategy"
         (Element "orphanedItemStrategy")) in
  has_prune <- lift (py_in "prune-dead-branches" project_def) ;;
  orphaned_item_strategy <-
    (if has_prune : bool then
       prune_dead_branches <-
         lift (py_get project_def "prune-dead-branches" (PBool false)) ;;
       ret (SubElement_text "pruneDeadBranches"
              (PStr (lower (str prune_dead_branches)))
              orphaned_item_strategy)
     else ret orphaned_item_strategy) ;;
  days <- lift (py_get project_def "days-to-keep" (PStr "-1")) ;;
  let orphaned_item_strategy :=
    SubElement_text "daysToKeep" days orphaned_item_strategy in
  num <- lift (py_get project_def "number-to-keep" (PStr "-1")) ;;
  ret (SubElement_text "numToKeep" num orphaned_item_strategy).

(** Lines 214-222: the [triggers] element. *)
Definition root_xml_triggers (project_def : pyval) : M element :=
  let triggers := Element "triggers" in
  has_timer <- lift (py_in "timer-trigger" project_def) ;;
  triggers <-
    (if has_timer : bool then
       timer <- lift (py_getitem project_def "timer-trigger") ;;
       ret (append
              (SubElement_text "spec" timer
                 (Element "hudson.triggers.TimerTrigger"))
              triggers)
     else ret triggers) ;;
  let periodic_folder_trigger :=
    set_attrib "plugin" "cloudbees-folder"
      (Element "com.cloudbees.hudson.plugins.folder.computed.PeriodicFolderTrigger") in
  spec <- lift (py_getitem project_def "periodic-folder-spec") ;;
  let periodic_folder_trigger :=
    SubElement_text "spec" spec periodic_folder_trigger in
  interval <- lift (py_getitem project_def "periodic-folder-interval") ;;
  let periodic_folder_trigger :=
    SubElement_text "interval" interval periodic_folder_trigger in
  ret (append periodic_folder_trigger triggers).

(** Lines 231-242: the body of the loop over [project_def['scm']]. *)
Definition scm_step (sources_data : element) (git_data : pyval) : M element :=
  warn ("git_data = " ++ str git_data) ;;
  if isinstance_dict git_data &&
     match py_in "git" git_data with Ok b => b | Raise _ => false end
  then
    let branch_source := Element "jenkins.branch.BranchSource" in
    git_spec <- lift (py_getitem git_data "git") ;;
    branch_source <- generate_git_scm_xml branch_source git_spec ;;
    has_strategy <- lift (py_in "strategy" git_spec) ;;
    branch_source <-
      (if has_strategy : bool then
         strategy <- lift (py_getitem git_spec "strategy") ;;
         generate_source_strategy branch_source strategy
       else generate_default_source_strategy branch_source) ;;
    ret (append branch_source sources_data)
  else
    warn "We cannot process scm" ;;
    ret sources_data.

(** Lines 224-246: the [sources] element. *)
Definition root_xml_sources (project_def : pyval) : M element :=
  let sources :=
    set_attrib "plugin" "branch-api"
      (set_attrib "class" "jenkins.branch.MultiBranchProject$BranchSourceList"
         (Element "sources")) in
  let sources_data := Element "data" in
  has_scm <- lift (py_in "scm" project_def) ;;
  sources_data <-
    (if has_scm : bool then
       scm <- lift (py_getitem project_def "scm") ;;
       items <- lift (py_iter scm) ;;
       for_each scm_step items sources_data
     else ret sources_data) ;;
  let sources := append sources_data sources in
  let owner :=
    set_attrib "reference" "../.."
      (set_attrib "class"
         "org.jenkinsci.plugins.workflow.multibranch.WorkflowMultiBranchProject"
         (Element "owner")) in
  ret (append owner sources).

(** Lines 248-252: the [factory] element. *)
Definition root_xml_factory : element :=
  let factory :=
    set_attrib "class"
      "org.jenkinsci.plugins.workflow.multibranch.WorkflowBranchProjectFactory"
      (Element "factory") in
  let factory_owner :=
    set_attrib "reference" "../.."
      (set_attrib "class"
         "org.jenkinsci.plugins.workflow.multibranch.WorkflowMultiBranchProject"
         (Element "owner")) in
  append factory_owner factory.

(** The whole of [root_xml].  [data['multibranch']] is evaluated again at
    lines 169, 206, 207 and 215; nothing has changed [data] since line 154,
    so each of these is [project_def]. *)
Definition root_xml (data : pyval) : M element :=
  let xml_parent :=
    set_attrib "plugin" "workflow-multibranch"
      (Element "org.jenkinsci.plugins.workflow.multibranch.WorkflowMultiBranchProject") in
  has_multibranch <- lift (py_in "multibranch" data) ;;
  if negb has_multibranch then ret xml_parent
  else
    project_def <- lift (py_getitem data "multibranch") ;;
    properties <- root_xml_properties project_def ;;
    let xml_parent := append properties xml_parent in
    let xml_parent := append root_xml_views xml_parent in
    let xml_parent := append root_xml_views_tab_bar xml_parent in
    let xml_parent := append root_xml_health_metrics xml_parent in
    let xml_parent := append root_xml_icon xml_parent in
    orphaned_item_strategy <- root_xml_orphaned_item_strategy project_def ;;
    let xml_parent := append orphaned_item_strategy xml_parent in
    triggers <- root_xml_triggers project_def ;;
    let xml_parent := append triggers xml_parent in
    sources <- root_xml_sources project_def ;;
    let xml_parent := append sources xml_parent in
    ret (append root_xml_factory xml_parent).

End PipelineMultiBranch.

(** ** Sample collaborators, worlds and configurations *)

Definition repr0 : pyval -> string := fun _ => "<container>".

Definition world0 : world :=
  mkWorld [] (fun n => ("uuid-" ++ NilZero.string_of_uint (Nat.to_uint n))%string).

Definition world1 : world :=
  mkWorld [] (fun n => ("other-" ++ NilZero.string_of_uint (Nat.to_uint n))%string).

(** A collaborator that leaves the element as it was given. *)
Definition git_nothing : element -> pyval -> element + string :=
  fun temp_xml _ => inl temp_xml.

(** A collaborator that adds an [scm] child with a non-empty [extensions]. *)
Definition git_wipe : element -> pyval -> element + string :=
  fun temp_xml _ =>
    let scm :=
      set_attrib "class" "hudson.plugins.git.GitSCM" (Element "scm") in
    let scm := SubElement_text "configVersion" (PStr "2") scm in
    let exts_node :=
      append (Element "hudson.plugins.git.extensions.impl.WipeWorkspace")
             (Element "extensions") in
    inl (append (append exts_node scm) temp_xml).

(** A collaborator whose [extensions] child is there but has no children. *)
Definition git_empty_extensions : element -> pyval -> element + string :=
  fun temp_xml _ =>
    let scm :=
      set_attrib "class" "hudson.plugins.git.GitSCM" (Element "scm") in
    let scm := SubElement_text "configVersion" (PStr "2") scm in
    inl (append (append (Element "extensions") scm) temp_xml).

(** A collaborator whose [scm] child has no [extensions]. *)
Definition git_no_extensions : element -> pyval -> element + string :=
  fun temp_xml _ =>
    let scm :=
      set_attrib "class" "hudson.plugins.git.GitSCM" (Element "scm") in
    inl (append (SubElement_text "configVersion" (PStr "2") scm) temp_xml).

Definition git_spec0 : list (string * pyval) :=
  [("url", PStr "https://x/y.git"); ("credentials-id", PStr "c1")].

Definition multibranch0 : list (string * pyval) :=
  [("periodic-folder-spec", PStr "H/5 * * * *");
   ("periodic-folder-interval", PStr "300000");
   ("scm", PList [PDict [("git", PDict git_spec0)]])].

Definition config0 : pyval := PDict [("multibranch", PDict multibranch0)].

Definition config_no_multibranch : list (string * pyval) :=
  [("name", PStr "example"); ("project-type", PStr "multibranch")].

Definition multibranch_no_spec : list (string * pyval) :=
  [("periodic-folder-interval", PStr "300000")].

Definition multibranch_no_interval : list (string * pyval) :=
  [("periodic-folder-spec", PStr "H/5 * * * *")].

Definition git_spec_no_url : list (string * pyval) :=
  [("credentials-id", PStr "c1")].

Definition git_spec_no_credentials : list (string * pyval) :=
  [("url", PStr "https://x/y.git")].

(** A record whose scm entries are [entries]. *)
Definition multibranch_with (entries : list pyval) : list (string * pyval) :=
  [("periodic-folder-spec", PStr "H/5 * * * *");
   ("periodic-folder-interval", PStr "300000");
   ("scm", PList entries)].

Definition git_entry (git_spec : list (string * pyval)) : pyval :=
  PDict [("git", PDict git_spec)].

(** [prune-dead-branches:] with nothing after the colon. *)
Definition multibranch_prune_empty : list (string * pyval) :=
  [("prune-dead-branches", PNone);
   ("periodic-folder-spec", PStr "H/5 * * * *");
   ("periodic-folder-interval", PStr "300000")].

Definition multibranch_prune_true : list (string * pyval) :=
  [("prune-dead-branches", PBool true);
   ("days-to-keep", PStr "7");
   ("periodic-folder-spec", PStr "H/5 * * * *");
   ("periodic-folder-interval", PStr "300000")].

Definition git_spec_simple_strategy : list (string * pyval) :=
  git_spec0 ++ [("strategy", PDict [])].

Definition git_spec_exceptions : list (string * pyval) :=
  git_spec0 ++
  [("strategy",
    PDict [("exceptions", PList [PStr "release/1.0"; PStr "hotfix"])])].

(** Entries that are not mappings or have no [git] key, around one that is
    processed. *)
Definition entries_mixed : list pyval :=
  [PStr "svn"; git_entry git_spec0; PDict [("hg", PDict git_spec0)]; PNone].

Definition entries_skipped : list pyval :=
  [PStr "svn"; PDict [("hg", PDict git_spec0)]].

(** An entry whose [git] value is a string. *)
Definition entry_git_string : list (string * pyval) :=
  [("git", PStr "https://x/y.git")].

(** A record without [scm], with [env-properties] and [timer-trigger]. *)
Definition multibranch_env : list (string * pyval) :=
  [("env-properties", PStr "STAGE=dev");
   ("timer-trigger", PStr "@midnight");
   ("periodic-folder-spec", PStr "H/5 * * * *");
   ("periodic-folder-interval", PStr "300000")].

(** A collaborator that raises. *)
Definition git_failing : element -> pyval -> element + string :=
  fun _ _ => inr "JenkinsJobsException".

(** [strategy:] with nothing after the colon. *)
Definition git_spec_strategy_null : list (string * pyval) :=
  git_spec0 ++ [("strategy", PNone)].

Definition git_spec1 : list (string * pyval) :=
  [("url", PStr "https://x/z.git"); ("credentials-id", PStr "c2");
   ("excludes", PStr "wip/*")].

(** Two git entries among entries that are skipped. *)
Definition entries_two : list pyval :=
  [PStr "svn"; git_entry git_spec1; PNone; git_entry git_spec0].

(** The root element [root_xml] starts from. *)
Definition bare_root : element :=
  mkElement
    "org.jenkinsci.plugins.workflow.multibranch.WorkflowMultiBranchProject"
    [("plugin", "workflow-multibranch")] PNone [].

(** An element with a text and nothing else. *)
Definition field (t : string) (v : pyval) : element := mkElement t [] v [].

(** The world after one identifier has been drawn. *)
Definition pop_uuid (w : world) : world :=
  mkWorld (warnings w) (fun n => entropy w (S n)).

Definition nonempty (e : element) : bool :=
  match children e with [] => false | _ :: _ => true end.

(** What [generate_git_scm_xml] takes over from the element [git] filled:
    the first [extensions] child of its first [scm] child, when both
    elements have children of their own. *)
Definition spliced (temp_xml : element) : list element :=
  match find "scm" temp_xml with
  | Some scm =>
      match find "extensions" scm with
      | Some ext => if nonempty scm && nonempty ext then [ext] else []
      | None => []
      end
  | None => []
  end.

Definition lookup_default (k : string) (d : list (string * pyval))
           (default : pyval) : pyval :=
  match dict_lookup k d with Some v => v | None => default end.

(** [occurs t e]: some node of the tree [e] has the tag [t]. *)
Fixpoint occurs (t : string) (e : element) : bool :=
  String.eqb (tag e) t || existsb (occurs t) (children e).

(** The world after the messages [msgs] have been logged. *)
Definition logged (msgs : list string) (w : world) : world :=
  mkWorld (warnings w ++ msgs) (entropy w).

(** [has_git e]: the scm entry [e] is a mapping with the key [git]. *)
Definition has_git (e : pyval) : bool :=
  match e with
  | PDict d => dict_has "git" d
  | _ => false
  end.

(** A list element [t] of class [java.util.Arrays$ArrayList] holding one
    no-trigger branch property. *)
Definition no_trigger_list (t : string) : element :=
  mkElement t [("class", "java.util.Arrays$ArrayList")] PNone
    [mkElement "a" [("class", "jenkins.branch.BranchProperty-array")] PNone
       [mkElement "jenkins.branch.NoTriggerBranchProperty" [] PNone []]].

(** The entry of the named-exceptions list for the branch [name]. *)
Definition named_entry (name : pyval) : element :=
  mkElement "jenkins.branch.NamedExceptionsBranchPropertyStrategy_-Named"
    [] PNone
    [no_trigger_list "props"; mkElement "name" [] name []].

(** The [sources] element around the [data] element [sources_data]. *)
Definition sources_node (sources_data : element) : element :=
  mkElement "sources"
    [("class", "jenkins.branch.MultiBranchProject$BranchSourceList");
     ("plugin", "branch-api")]
    PNone
    [sources_data;
     mkElement "owner"
       [("class",
         "org.jenkinsci.plugins.workflow.multibranch.WorkflowMultiBranchProject");
        ("reference", "../..")]
       PNone []].

(** The two notices logged for an scm entry that is skipped. *)
Definition skip_notices (container_repr : pyval -> string) (e : pyval)
  : list string :=
  [("git_data = " ++ py_str container_repr e)%string; "We cannot process scm"].

(** [frame m]: what [m] logs is added to the log and nothing in the log
    that was there before influences [m]. *)
Definition frame {A} (m : M A) : Prop :=
  forall l w,
    m (mkWorld (l ++ warnings w) (entropy w)) =
    (fst (m w),
     mkWorld (l ++ warnings (snd (m w))) (entropy (snd (m w)))).

(** [post P m]: every value [m] returns satisfies [P]. *)
Definition post {A} (P : A -> Prop) (m : M A) : Prop :=
  forall w a w', m w = (Ok a, w') -> P a.

(** [clean e]: no node of [e] has the tag of the scratch element. *)
Definition clean (e : element) : Prop := occurs "temp-git" e = false.

(** The collaborator puts no [temp-git] node into the [extensions] element
    it creates. *)
Definition git_extensions_clean (git : element -> pyval -> element + string)
  : Prop :=
  forall spec temp_xml scm ext,
    git (Element "temp-git") spec = inl temp_xml ->
    find "scm" temp_xml = Some scm ->
    find "extensions" scm = Some ext ->
    occurs "temp-git" ext = false.

(** [scrub_at path e]: the element [e] with the text removed from the nodes
    reached from [e] by following the tags of [path]. *)
Fixpoint scrub_at (path : list string) (e : element) : element :=
  match path with
  | [] => mkElement (tag e) (attrib e) PNone (children e)
  | t :: path' =>
      mkElement (tag e) (attrib e) (text e)
        (map (fun c => if String.eqb (tag c) t then scrub_at path' c else c)
             (children e))
  end.

(** The way from the root of the document to the [id] of a git source. *)
Definition id_path : list string :=
  ["sources"; "data"; "jenkins.branch.BranchSource"; "source"; "id"].

(** Two elements tagged [t] that are equal once the texts at [path] are
    left out. *)
Definition same_but (t : string) (path : list string) (e1 e2 : element)
  : Prop :=
  tag e1 = t /\ tag e2 = t /\ scrub_at path e1 = scrub_at path e2.

Definition rel_result {A} (R : A -> A -> Prop) (r1 r2 : result A) : Prop :=
  match r1, r2 with
  | Ok a1, Ok a2 => R a1 a2
  | Raise e1, Raise e2 => e1 = e2
  | _, _ => False
  end.

(** [sim R m1 m2]: whatever the logs and random sources, [m1] and [m2] raise
    the same exception or return values related by [R]. *)
Definition sim {A} (R : A -> A -> Prop) (m1 m2 : M A) : Prop :=
  forall w1 w2, rel_result R (fst (m1 w1)) (fst (m2 w2)).

(** The branch sources of a document: the children of root / [sources] /
    [data]. *)
Definition branch_sources (doc : element) : list element :=
  match find "sources" doc with
  | Some sources =>
      match find "data" sources with
      | Some sources_data => children sources_data
      | None => []
      end
  | None => []
  end.

(** The text of the child [t] of the [source] node of a branch source. *)
Definition source_text (t : string) (branch_source : element) : pyval :=
  match find "source" branch_source with
  | Some source =>
      match find t source with
      | Some c => text c
      | None => PNone
      end
  | None => PNone
  end.

(** The [url] of the git spec of an scm entry. *)
Definition entry_url (e : pyval) : pyval :=
  match e with
  | PDict d =>
      match dict_lookup "git" d with
      | Some (PDict g) => lookup_default "url" g PNone
      | _ => PNone
      end
  | _ => PNone
  end.

(** Values that are neither strings nor containers. *)
Definition is_scalar (v : pyval) : bool :=
  match v with
  | PNone | PBool _ | PInt _ => true
  | PStr _ | PList _ | PDict _ => false
  end.

(** ** Reasoning about [M] *)

Lemma bind_Ok_inv {A B} (m : M A) (f : A -> M B) w b w' :
  bind m f w = (Ok b, w') ->
  exists a w1, m w = (Ok a, w1) /\ f a w1 = (Ok b, w').
Proof.
  unfold bind. destruct (m w) as [[a|e] w1]; intros H.
  - exists a, w1. split; [reflexivity | exact H].
  - discriminate H.
Qed.

Lemma bind_Ok {A B} (m : M A) (f : A -> M B) w a w1 :
  m w = (Ok a, w1) -> bind m f w = f a w1.
Proof. unfold bind. intros ->. reflexivity. Qed.

Lemma bind_Raise {A B} (m : M A) (f : A -> M B) w e w1 :
  m w = (Raise e, w1) -> bind m f w = (Raise e, w1).
Proof. unfold bind. intros ->. reflexivity. Qed.

Lemma lift_Ok_inv {A} (r : result A) w a w' :
  lift r w = (Ok a, w') -> r = Ok a /\ w' = w.
Proof. unfold lift. intros H. inversion H. split; reflexivity. Qed.

Lemma ret_Ok_inv {A} (x : A) w a w' :
  ret x w = (Ok a, w') -> a = x /\ w' = w.
Proof. unfold ret. intros H. inversion H. split; reflexivity. Qed.

Lemma fst_bind_same {A B} (m1 m2 : M A) (f1 f2 : A -> M B) w :
  m1 w = m2 w ->
  (forall a w', m1 w = (Ok a, w') -> fst (f1 a w') = fst (f2 a w')) ->
  fst (bind m1 f1 w) = fst (bind m2 f2 w).
Proof.
  intros Hm Hf. unfold bind. rewrite <- Hm.
  destruct (m1 w) as [[a|e] w1]; [apply Hf|]; reflexivity.
Qed.

Lemma fst_bind_fst {A B} (m1 m2 : M A) (f1 f2 : A -> M B) w1 w2 :
  fst (m1 w1) = fst (m2 w2) ->
  (forall a w1' w2', fst (f1 a w1') = fst (f2 a w2')) ->
  fst (bind m1 f1 w1) = fst (bind m2 f2 w2).
Proof.
  intros Hm Hf. unfold bind.
  destruct (m1 w1) as [[a1|e1] w1'], (m2 w2) as [[a2|e2] w2'];
    cbn in Hm; try discriminate Hm; inversion Hm; subst.
  - apply Hf.
  - reflexivity.
Qed.

Ltac inv_all :=
  repeat match goal with
  | H : bind _ _ _ = (Ok _, _) |- _ =>
      apply bind_Ok_inv in H; destruct H as (? & ? & ? & H)
  | H : lift _ _ = (Ok _, _) |- _ =>
      apply lift_Ok_inv in H; destruct H as [H ->]
  | H : ret _ _ = (Ok _, _) |- _ =>
      apply ret_Ok_inv in H; destruct H as [-> ->]
  | H : (if ?b then _ else _) _ = (Ok _, _) |- _ => destruct b
  end.

Ltac inv_M H :=
  repeat match type of H with
  | bind _ _ _ = (Ok _, _) =>
      let a := fresh "a" in let w := fresh "w" in
      let H1 := fresh "Hm" in
      apply bind_Ok_inv in H; destruct H as (a & w & H1 & H);
      try (apply lift_Ok_inv in H1; destruct H1 as [H1 ->])
  | ret _ _ = (Ok _, _) =>
      apply ret_Ok_inv in H; destruct H as [-> ->]
  end.

Section Properties.

Variable git : element -> pyval -> element + string.
Variable container_repr : pyval -> string.

Local Abbreviation str := (py_str container_repr).

(** C1: a configuration record without the key [multibranch] yields exactly
    the bare root element: the tag of the multi-branch project type, the
    attribute [plugin = workflow-multibranch], no text and no children; no
    notice is logged and no identifier is drawn. *)
Theorem root_xml_without_multibranch (d : list (string * pyval)) (w : world) :
  dict_lookup "multibranch" d = None ->
  root_xml git container_repr (PDict d) w =
  (Ok (mkElement
         "org.jenkinsci.plugins.workflow.multibranch.WorkflowMultiBranchProject"
         [("plugin", "workflow-multibranch")] PNone []),
   w).
Proof.
  intros H. unfold root_xml, bind, lift. cbn [py_in].
  unfold dict_has. rewrite H. reflexivity.
Qed.

(** *** The git source generator *)

(** The result of [generate_git_scm_xml] on a mapping that has [url] and
    [credentials-id]. *)
Lemma generate_git_scm_xml_dict parent g w u c :
  dict_lookup "url" g = Some u ->
  dict_lookup "credentials-id" g = Some c ->
  generate_git_scm_xml git container_repr parent (PDict g) w =
  match git (Element "temp-git") (PDict g) with
  | inr what => (Raise (CollaboratorError what), pop_uuid w)
  | inl temp_xml =>
      (Ok (append
             (mkElement "source"
                [("class", "jenkins.plugins.git.GitSCMSource");
                 ("plugin", "git")]
                PNone
                ((match dict_lookup "excludes" g with
                  | None => [Element "excludes"]
                  | Some _ => []
                  end) ++
                 [field "id" (PStr (entropy w 0));
                  field "remote" u;
                  field "credentialsId" c;
                  field "ignoreOnPushNotifications"
                    (PStr (lower (str (lookup_default
                                         "ignore-on-push-notifications" g
                                         (PBool true)))));
                  field "includes" (lookup_default "includes" g (PStr "*"))] ++
                 (match dict_lookup "excludes" g with
                  | None => []
                  | Some x => [field "excludes" x]
                  end) ++
                 spliced temp_xml))
             parent),
       pop_uuid w)
  end.
Proof.
  intros Hu Hc.
  unfold generate_git_scm_xml, bind, lift, uuid4, ret, lookup_default.
  cbn [py_get py_getitem py_in]. unfold dict_has. rewrite Hu, Hc.
  destruct (dict_lookup "ignore-on-push-notifications" g) as [iop|];
    destruct (dict_lookup "includes" g) as [inc|];
    destruct (dict_lookup "excludes" g) as [exc|];
    destruct (git (Element "temp-git") (PDict g)) as [t|what];
    try reflexivity;
    unfold spliced, truth, nonempty;
    destruct (find "scm" t) as [scm|]; try reflexivity;
    destruct (find "extensions" scm) as [ext|];
    destruct (children scm); try reflexivity;
    destruct (children ext); reflexivity.
Qed.

Lemma generate_git_scm_xml_not_dict parent v w :
  isinstance_dict v = false ->
  generate_git_scm_xml git container_repr parent v w =
  (Raise (AttributeError "get"), w).
Proof. intros H. destruct v; try discriminate H; reflexivity. Qed.

Lemma generate_git_scm_xml_no_url parent g w :
  dict_lookup "url" g = None ->
  generate_git_scm_xml git container_repr parent (PDict g) w =
  (Raise (KeyError "url"), pop_uuid w).
Proof.
  intros Hu. unfold generate_git_scm_xml, bind, lift, uuid4.
  cbn [py_get py_getitem]. rewrite Hu.
  destruct (dict_lookup "ignore-on-push-notifications" g); reflexivity.
Qed.

Lemma generate_git_scm_xml_no_credentials parent g w u :
  dict_lookup "url" g = Some u ->
  dict_lookup "credentials-id" g = None ->
  generate_git_scm_xml git container_repr parent (PDict g) w =
  (Raise (KeyError "credentials-id"), pop_uuid w).
Proof.
  intros Hu Hc. unfold generate_git_scm_xml, bind, lift, uuid4.
  cbn [py_get py_getitem]. rewrite Hu, Hc.
  destruct (dict_lookup "ignore-on-push-notifications" g); reflexivity.
Qed.

(** When [generate_git_scm_xml] returns, its argument was a mapping with
    [url] and [credentials-id] and the collaborator returned. *)
Lemma generate_git_scm_xml_Ok_inv parent v w parent' w' :
  generate_git_scm_xml git container_repr parent v w = (Ok parent', w') ->
  exists g u c temp_xml,
    v = PDict g /\
    dict_lookup "url" g = Some u /\
    dict_lookup "credentials-id" g = Some c /\
    git (Element "temp-git") (PDict g) = inl temp_xml.
Proof.
  intros H.
  destruct (isinstance_dict v) eqn:Hd.
  2:{ rewrite generate_git_scm_xml_not_dict in H by exact Hd. discriminate H. }
  destruct v as [| | | | |g]; try discriminate Hd.
  destruct (dict_lookup "url" g) as [u|] eqn:Hu.
  2:{ rewrite generate_git_scm_xml_no_url in H by exact Hu. discriminate H. }
  destruct (dict_lookup "credentials-id" g) as [c|] eqn:Hc.
  2:{ rewrite (generate_git_scm_xml_no_credentials _ _ _ u) in H
        by assumption. discriminate H. }
  rewrite (generate_git_scm_xml_dict _ _ _ u c Hu Hc) in H.
  destruct (git (Element "temp-git") (PDict g)) as [t|what] eqn:Hg.
  - exists g, u, c, t. repeat split; assumption.
  - discriminate H.
Qed.

Lemma find_tag t e x : find t e = Some x -> tag x = t.
Proof.
  unfold find. intros H. apply find_some in H. destruct H as [_ H].
  apply String.eqb_eq. exact H.
Qed.

Lemma spliced_cases temp_xml :
  spliced temp_xml = [] \/
  exists ext, spliced temp_xml = [ext] /\ tag ext = "extensions".
Proof.
  unfold spliced. destruct (find "scm" temp_xml) as [scm|]; [|now left].
  destruct (find "extensions" scm) as [ext|] eqn:He; [|now left].
  destruct (nonempty scm && nonempty ext); [|now left].
  right. exists ext. split; [reflexivity|]. eapply find_tag; eassumption.
Qed.

(** C3 (as the code has it): the [source] node of a git source spec.  Its
    children [id], [remote], [credentialsId], [ignoreOnPushNotifications]
    and [includes] ([*] by default) come in this order.  The text of
    [ignoreOnPushNotifications] is a string: [true] when the key is absent,
    and the lowercase of the string form of the value whenever that string
    form is ASCII.  When the spec has [excludes], an [excludes] child with
    that value follows [includes]; when it has not, an [excludes] child
    without text is there and comes before [id].  The only other child is
    the [extensions] element taken over from the collaborator, last, if
    any. *)
Theorem git_source_children parent g w parent' w' :
  generate_git_scm_xml git container_repr parent (PDict g) w
  = (Ok parent', w') ->
  exists source url credentials_id ignore_text tail,
    children parent' = children parent ++ [source] /\
    tag source = "source" /\
    dict_lookup "url" g = Some url /\
    dict_lookup "credentials-id" g = Some credentials_id /\
    (dict_lookup "ignore-on-push-notifications" g = None ->
     ignore_text = "true") /\
    (forall v,
        dict_lookup "ignore-on-push-notifications" g = Some v ->
        is_ascii (str v) = true ->
        ignore_text = lower (str v)) /\
    (tail = [] \/ exists ext, tail = [ext] /\ tag ext = "extensions") /\
    let fields :=
      [mkElement "id" [] (PStr (entropy w 0)) [];
       mkElement "remote" [] url [];
       mkElement "credentialsId" [] credentials_id [];
       mkElement "ignoreOnPushNotifications" [] (PStr ignore_text) [];
       mkElement "includes" []
         (match dict_lookup "includes" g
          with Some v => v | None => PStr "*" end) []] in
    match dict_lookup "excludes" g with
    | Some x =>
        children source = fields ++ [mkElement "excludes" [] x []] ++ tail
    | None =>
        children source = [mkElement "excludes" [] PNone []] ++ fields ++ tail
    end.
Proof.
  intros H.
  destruct (generate_git_scm_xml_Ok_inv _ _ _ _ _ H)
    as (g' & u & c & t & Hv & Hu & Hc & Hg).
  inversion Hv; subst g'; clear Hv.
  rewrite (generate_git_scm_xml_dict _ _ _ u c Hu Hc), Hg in H.
  inversion H; subst parent' w'; clear H.
  eexists.
  exists u, c,
    (lower (str (lookup_default "ignore-on-push-notifications" g
                   (PBool true)))),
    (spliced t).
  split; [reflexivity|]. split; [reflexivity|].
  split; [exact Hu|]. split; [exact Hc|].
  split; [intros Hn; unfold lookup_default; rewrite Hn; reflexivity|].
  split; [intros v Hsome _; unfold lookup_default; rewrite Hsome;
          reflexivity|].
  split; [apply spliced_cases|].
  cbn zeta. unfold lookup_default, field.
  destruct (dict_lookup "excludes" g); reflexivity.
Qed.

(** C4 (where the code departs from the claim): the collaborator returned,
    its element has an [scm] child and that child has an [extensions]
    child, but the [extensions] element has no children of its own.  The
    test at line 283 takes the truth value of the element, which is false
    for an element without children, so nothing is taken over: the [source]
    node has no [extensions] child. *)
Theorem childless_extensions_not_spliced parent g w u c temp_xml scm ext :
  dict_lookup "url" g = Some u ->
  dict_lookup "credentials-id" g = Some c ->
  git (Element "temp-git") (PDict g) = inl temp_xml ->
  find "scm" temp_xml = Some scm ->
  find "extensions" scm = Some ext ->
  children ext = [] ->
  exists parent' source,
    generate_git_scm_xml git container_repr parent (PDict g) w
    = (Ok parent', pop_uuid w) /\
    children parent' = children parent ++ [source] /\
    tag source = "source" /\
    find "extensions" source = None.
Proof.
  intros Hu Hc Hg Hscm Hext Hnil.
  rewrite (generate_git_scm_xml_dict _ _ _ u c Hu Hc), Hg.
  eexists; eexists. split; [reflexivity|].
  split; [reflexivity|]. split; [reflexivity|].
  unfold spliced. rewrite Hscm, Hext. unfold nonempty at 2. rewrite Hnil.
  rewrite andb_false_r.
  destruct (dict_lookup "excludes" g); reflexivity.
Qed.

(** X11: an [extensions] element with children is taken over, unchanged,
    as the last child of [source]; this and the next lemma are the two cases
    in which the code does what C4 says. *)
Lemma nonempty_extensions_spliced parent g w u c temp_xml scm ext :
  dict_lookup "url" g = Some u ->
  dict_lookup "credentials-id" g = Some c ->
  git (Element "temp-git") (PDict g) = inl temp_xml ->
  find "scm" temp_xml = Some scm ->
  find "extensions" scm = Some ext ->
  children ext <> [] ->
  exists parent' source fields,
    generate_git_scm_xml git container_repr parent (PDict g) w
    = (Ok parent', pop_uuid w) /\
    children parent' = children parent ++ [source] /\
    children source = fields ++ [ext] /\
    find "extensions" source = Some ext /\
    forallb (fun x => negb (String.eqb (tag x) "temp-git")) (children source)
    = true.
Proof.
  intros Hu Hc Hg Hscm Hext Hne.
  rewrite (generate_git_scm_xml_dict _ _ _ u c Hu Hc), Hg.
  assert (Hs : spliced temp_xml = [ext]).
  { unfold spliced. rewrite Hscm, Hext.
    assert (nonempty ext = true) as ->
        by (unfold nonempty; destruct (children ext); congruence).
    assert (nonempty scm = true) as ->.
    { unfold nonempty, find in *. destruct (children scm); [discriminate Hext|].
      reflexivity. }
    reflexivity. }
  assert (Ht : tag ext = "extensions") by (eapply find_tag; eassumption).
  rewrite Hs.
  eexists; eexists; eexists. split; [reflexivity|].
  split; [reflexivity|]. cbn [children].
  split; [rewrite !app_assoc; reflexivity|].
  unfold find. cbn [children].
  destruct (dict_lookup "excludes" g); cbn; rewrite Ht; cbn; auto.
Qed.

(** X12: an [scm] child without [extensions] leaves [source] without one,
    and nothing is raised. *)
Lemma missing_extensions_not_spliced parent g w u c temp_xml scm :
  dict_lookup "url" g = Some u ->
  dict_lookup "credentials-id" g = Some c ->
  git (Element "temp-git") (PDict g) = inl temp_xml ->
  find "scm" temp_xml = Some scm ->
  find "extensions" scm = None ->
  exists parent' source,
    generate_git_scm_xml git container_repr parent (PDict g) w
    = (Ok parent', pop_uuid w) /\
    children parent' = children parent ++ [source] /\
    find "extensions" source = None.
Proof.
  intros Hu Hc Hg Hscm Hext.
  rewrite (generate_git_scm_xml_dict _ _ _ u c Hu Hc), Hg.
  eexists; eexists. split; [reflexivity|]. split; [reflexivity|].
  unfold spliced. rewrite Hscm, Hext.
  destruct (dict_lookup "excludes" g); reflexivity.
Qed.

(** *** The branch strategy generator *)

Lemma logged_logged l1 l2 w : logged l2 (logged l1 w) = logged (l1 ++ l2) w.
Proof. unfold logged. cbn. rewrite app_assoc. reflexivity. Qed.

Lemma warn_logged msg w : warn msg w = (Ok tt, logged [msg] w).
Proof. reflexivity. Qed.

Lemma for_each_named_exception_step items acc w :
  for_each (named_exception_step container_repr) items acc w =
  (Ok (mkElement (tag acc) (attrib acc) (text acc)
         (children acc ++ map named_entry items)),
   logged (map (fun x => ("Exception found for branch " ++ str x)%string)
               items) w).
Proof.
  revert acc w. induction items as [|x items IH]; intros acc w.
  - cbn. rewrite app_nil_r. destruct acc, w. unfold logged. cbn.
    rewrite app_nil_r. reflexivity.
  - cbn [for_each]. unfold bind at 1.
    unfold named_exception_step at 1. unfold bind at 1.
    rewrite warn_logged. unfold ret at 1. rewrite IH.
    rewrite logged_logged. cbn -[String.append].
    rewrite <- app_assoc. reflexivity.
Qed.

Lemma generate_source_strategy_simple xml_parent data w :
  py_in "exceptions" data = Ok false ->
  generate_source_strategy container_repr xml_parent data w =
  (Ok (append
         (mkElement "strategy"
            [("class", "jenkins.branch.DefaultBranchPropertyStrategy")] PNone
            [no_trigger_list "properties"])
         xml_parent),
   logged ["contains simple git strategy"] w).
Proof.
  intros H. unfold generate_source_strategy, bind, lift. rewrite H.
  reflexivity.
Qed.

Lemma generate_source_strategy_named xml_parent data exceptions items w :
  py_in "exceptions" data = Ok true ->
  py_getitem data "exceptions" = Ok exceptions ->
  py_iter exceptions = Ok items ->
  generate_source_strategy container_repr xml_parent data w =
  (Ok (append
         (mkElement "strategy"
            [("class", "jenkins.branch.NamedExceptionsBranchPropertyStrategy")]
            PNone
            [no_trigger_list "defaultProperties";
             mkElement "namedExceptions"
               [("class", "java.util.Arrays$ArrayList")] PNone
               [mkElement "a"
                  [("class",
                    "jenkins.branch.NamedExceptionsBranchPropertyStrategy$Named-array")]
                  PNone (map named_entry items)]])
         xml_parent),
   logged ("contains git strategy exceptions" ::
           map (fun x => ("Exception found for branch " ++ str x)%string)
               items) w).
Proof.
  intros Hin Hget Hiter. unfold generate_source_strategy.
  unfold bind at 1. unfold lift at 1. rewrite Hin.
  unfold bind at 1. rewrite warn_logged.
  unfold bind at 1. unfold lift at 1. rewrite Hget.
  unfold bind at 1. unfold lift at 1. rewrite Hiter.
  unfold bind at 1. rewrite for_each_named_exception_step.
  rewrite logged_logged. reflexivity.
Qed.

(** *** One step of the loop over the scm entries *)

Lemma scm_step_skip sources_data e w :
  has_git e = false ->
  scm_step git container_repr sources_data e w =
  (Ok sources_data,
   logged [("git_data = " ++ str e)%string; "We cannot process scm"] w).
Proof.
  intros H. unfold scm_step. unfold bind at 1. rewrite warn_logged.
  assert (Hc : isinstance_dict e &&
               match py_in "git" e with Ok b => b | Raise _ => false end
               = false).
  { destruct e; try reflexivity. cbn in *. exact H. }
  rewrite Hc. unfold bind. rewrite warn_logged. unfold ret.
  rewrite logged_logged. reflexivity.
Qed.

Lemma scm_step_git sources_data e git_spec w :
  dict_lookup "git" e = Some git_spec ->
  scm_step git container_repr sources_data (PDict e) w =
  (branch_source <-
     generate_git_scm_xml git container_repr
       (Element "jenkins.branch.BranchSource") git_spec ;;
   has_strategy <- lift (py_in "strategy" git_spec) ;;
   branch_source <-
     (if has_strategy : bool then
        strategy <- lift (py_getitem git_spec "strategy") ;;
        generate_source_strategy container_repr branch_source strategy
      else generate_default_source_strategy branch_source) ;;
   ret (append branch_source sources_data))
    (logged [("git_data = " ++ str (PDict e))%string] w).
Proof.
  intros H. unfold scm_step. unfold bind at 1. rewrite warn_logged.
  cbn [isinstance_dict py_in andb py_getitem]. unfold dict_has. rewrite H.
  unfold bind at 1. unfold lift at 1. reflexivity.
Qed.

(** C5: the strategy attached to the branch source of an scm entry.  With
    no [strategy] in the git spec it is the default-strategy class with a
    [properties] child of class [empty-list]; with a strategy mapping
    without [exceptions] it is the same class with a
    [java.util.Arrays$ArrayList] [properties] child holding one no-trigger
    branch property; with [exceptions] it is the named-exceptions class with
    a [defaultProperties] list of one no-trigger property and a
    [namedExceptions] list with one entry per name, in input order, each a
    one-item no-trigger list and a [name] child whose text is the name as
    given. *)
Theorem branch_strategy_cases sources_data e g w branch_source w1 :
  dict_lookup "git" e = Some (PDict g) ->
  generate_git_scm_xml git container_repr
    (Element "jenkins.branch.BranchSource") (PDict g)
    (logged [("git_data = " ++ str (PDict e))%string] w)
  = (Ok branch_source, w1) ->
  (dict_lookup "strategy" g = None ->
   scm_step git container_repr sources_data (PDict e) w =
   (Ok (append
          (append
             (mkElement "strategy"
                [("class", "jenkins.branch.DefaultBranchPropertyStrategy")]
                PNone
                [mkElement "properties" [("class", "empty-list")] PNone []])
             branch_source)
          sources_data),
    w1))
  /\
  (forall s,
      dict_lookup "strategy" g = Some (PDict s) ->
      dict_lookup "exceptions" s = None ->
      scm_step git container_repr sources_data (PDict e) w =
      (Ok (append
             (append
                (mkElement "strategy"
                   [("class", "jenkins.branch.DefaultBranchPropertyStrategy")]
                   PNone
                   [mkElement "properties"
                      [("class", "java.util.Arrays$ArrayList")] PNone
                      [mkElement "a"
                         [("class", "jenkins.branch.BranchProperty-array")]
                         PNone
                         [mkElement "jenkins.branch.NoTriggerBranchProperty"
                            [] PNone []]]])
                branch_source)
             sources_data),
       logged ["contains simple git strategy"] w1))
  /\
  (forall s names,
      dict_lookup "strategy" g = Some (PDict s) ->
      dict_lookup "exceptions" s = Some (PList names) ->
      scm_step git container_repr sources_data (PDict e) w =
      (Ok (append
             (append
                (mkElement "strategy"
                   [("class",
                     "jenkins.branch.NamedExceptionsBranchPropertyStrategy")]
                   PNone
                   [no_trigger_list "defaultProperties";
                    mkElement "namedExceptions"
                      [("class", "java.util.Arrays$ArrayList")] PNone
                      [mkElement "a"
                         [("class",
                           "jenkins.branch.NamedExceptionsBranchPropertyStrategy$Named-array")]
                         PNone
                         (map (fun name =>
                                 mkElement
                                   "jenkins.branch.NamedExceptionsBranchPropertyStrategy_-Named"
                                   [] PNone
                                   [no_trigger_list "props";
                                    mkElement "name" [] name []])
                              names)]])
                branch_source)
             sources_data),
       logged ("contains git strategy exceptions" ::
               map (fun x => ("Exception found for branch " ++ str x)%string)
                   names) w1)).
Proof.
  intros Hgit Hsrc.
  rewrite (scm_step_git sources_data e (PDict g) w Hgit).
  rewrite (bind_Ok _ _ _ _ _ Hsrc).
  unfold bind at 1. unfold lift at 1. cbn [py_in]. unfold dict_has.
  repeat split.
  - intros Hs. rewrite Hs. reflexivity.
  - intros s Hs Hex. rewrite Hs. unfold bind, lift.
    cbn [py_getitem]. rewrite Hs.
    rewrite generate_source_strategy_simple.
    + reflexivity.
    + cbn. unfold dict_has. rewrite Hex. reflexivity.
  - intros s names Hs Hex. rewrite Hs. unfold bind, lift.
    cbn [py_getitem]. rewrite Hs.
    rewrite (generate_source_strategy_named _ (PDict s) (PList names) names).
    + reflexivity.
    + cbn. unfold dict_has. rewrite Hex. reflexivity.
    + cbn. rewrite Hex. reflexivity.
    + reflexivity.
Qed.

(** *** The blocks of [root_xml] on a mapping *)

Lemma root_xml_properties_tag project_def w properties w' :
  root_xml_properties project_def w = (Ok properties, w') ->
  tag properties = "properties" /\ w' = w.
Proof.
  unfold root_xml_properties. intros H. inv_M H.
  destruct a.
  - inv_M H. split; reflexivity.
  - inv_M H. split; reflexivity.
Qed.

Lemma root_xml_orphaned_item_strategy_dict md w :
  root_xml_orphaned_item_strategy container_repr (PDict md) w =
  (Ok (mkElement "orphanedItemStrategy"
         [("class",
           "com.cloudbees.hudson.plugins.folder.computed.DefaultOrphanedItemStrategy");
          ("plugin", "cloudbees-folder")]
         PNone
         ((match dict_lookup "prune-dead-branches" md with
           | Some v => [field "pruneDeadBranches" (PStr (lower (str v)))]
           | None => []
           end) ++
          [field "daysToKeep" (lookup_default "days-to-keep" md (PStr "-1"));
           field "numToKeep"
             (lookup_default "number-to-keep" md (PStr "-1"))])),
   w).
Proof.
  unfold root_xml_orphaned_item_strategy, bind, lift, ret, lookup_default.
  cbn [py_in py_get]. unfold dict_has.
  destruct (dict_lookup "prune-dead-branches" md);
    destruct (dict_lookup "days-to-keep" md);
    destruct (dict_lookup "number-to-keep" md); reflexivity.
Qed.

Lemma root_xml_triggers_no_spec md w :
  dict_lookup "periodic-folder-spec" md = None ->
  root_xml_triggers (PDict md) w =
  (Raise (KeyError "periodic-folder-spec"), w).
Proof.
  intros H. unfold root_xml_triggers, bind, lift, ret.
  cbn [py_in py_getitem]. unfold dict_has. rewrite H.
  destruct (dict_lookup "timer-trigger" md); reflexivity.
Qed.

Lemma root_xml_triggers_no_interval md w spec :
  dict_lookup "periodic-folder-spec" md = Some spec ->
  dict_lookup "periodic-folder-interval" md = None ->
  root_xml_triggers (PDict md) w =
  (Raise (KeyError "periodic-folder-interval"), w).
Proof.
  intros H1 H2. unfold root_xml_triggers, bind, lift, ret.
  cbn [py_in py_getitem]. unfold dict_has. rewrite H1, H2.
  destruct (dict_lookup "timer-trigger" md); reflexivity.
Qed.

Lemma root_xml_triggers_dict md spec interval :
  dict_lookup "periodic-folder-spec" md = Some spec ->
  dict_lookup "periodic-folder-interval" md = Some interval ->
  exists triggers,
    (forall w, root_xml_triggers (PDict md) w = (Ok triggers, w)) /\
    tag triggers = "triggers" /\
    occurs "temp-git" triggers = false.
Proof.
  intros H1 H2. unfold root_xml_triggers, bind, lift, ret.
  cbn [py_in py_getitem]. unfold dict_has. rewrite H1, H2.
  destruct (dict_lookup "timer-trigger" md);
    eexists; (split; [intros w; reflexivity|]); split; reflexivity.
Qed.

Lemma root_xml_properties_dict md :
  exists properties,
    (forall w, root_xml_properties (PDict md) w = (Ok properties, w)) /\
    tag properties = "properties".
Proof.
  unfold root_xml_properties, bind, lift, ret.
  cbn [py_in py_getitem]. unfold dict_has.
  destruct (dict_lookup "env-properties" md);
    eexists; (split; [intros w; reflexivity|]); reflexivity.
Qed.

(** [root_xml] on a record whose [multibranch] is [project_def]. *)
Lemma root_xml_multibranch d project_def w :
  dict_lookup "multibranch" d = Some project_def ->
  root_xml git container_repr (PDict d) w =
  (properties <- root_xml_properties project_def ;;
   orphaned_item_strategy <-
     root_xml_orphaned_item_strategy container_repr project_def ;;
   triggers <- root_xml_triggers project_def ;;
   sources <- root_xml_sources git container_repr project_def ;;
   ret (mkElement
          "org.jenkinsci.plugins.workflow.multibranch.WorkflowMultiBranchProject"
          [("plugin", "workflow-multibranch")] PNone
          [properties; root_xml_views; root_xml_views_tab_bar;
           root_xml_health_metrics; root_xml_icon; orphaned_item_strategy;
           triggers; sources; root_xml_factory])) w.
Proof.
  intros H. unfold root_xml. unfold bind at 1. unfold lift at 1.
  cbn [py_in]. unfold dict_has. rewrite H. cbn [negb].
  unfold bind at 1. unfold lift at 1. cbn [py_getitem]. rewrite H.
  reflexivity.
Qed.

(** C7 (as the code has it): the [orphanedItemStrategy] element of the
    document.  Without [prune-dead-branches] in the [multibranch] mapping it
    has no [pruneDeadBranches] child; with the key, the child's text is a
    string made from the value that is there (the default [False] of the
    lookup is never used, since the key is known to be present), and
    whenever the string form of that value is ASCII the text is its
    lowercase: [none] for an empty value, [false] for [False].
    [daysToKeep] and [numToKeep] always follow, with the text [-1] when
    [days-to-keep] / [number-to-keep] are absent and the value as given
    otherwise. *)
Theorem orphaned_item_strategy_block d md w doc w' :
  dict_lookup "multibranch" d = Some (PDict md) ->
  root_xml git container_repr (PDict d) w = (Ok doc, w') ->
  exists orphaned prune_text,
    find "orphanedItemStrategy" doc = Some orphaned /\
    (forall v,
        dict_lookup "prune-dead-branches" md = Some v ->
        is_ascii (str v) = true ->
        prune_text = lower (str v)) /\
    children orphaned =
    (match dict_lookup "prune-dead-branches" md with
     | None => []
     | Some _ => [mkElement "pruneDeadBranches" [] (PStr prune_text) []]
     end) ++
    [mkElement "daysToKeep" []
       (match dict_lookup "days-to-keep" md with
        | Some v => v | None => PStr "-1" end) [];
     mkElement "numToKeep" []
       (match dict_lookup "number-to-keep" md with
        | Some v => v | None => PStr "-1" end) []].
Proof.
  intros Hmb H. rewrite (root_xml_multibranch _ _ _ Hmb) in H.
  destruct (root_xml_properties_dict md) as (props & Hp & Htag).
  rewrite (bind_Ok _ _ _ _ _ (Hp w)) in H.
  rewrite (bind_Ok _ _ _ _ _ (root_xml_orphaned_item_strategy_dict md w)) in H.
  inv_M H.
  eexists.
  exists (lower (str (lookup_default "prune-dead-branches" md PNone))).
  split; [|split].
  - unfold find. cbn [children List.find]. rewrite Htag. reflexivity.
  - intros v Hv _. unfold lookup_default. rewrite Hv. reflexivity.
  - cbn [children]. unfold lookup_default, field.
    destruct (dict_lookup "prune-dead-branches" md); reflexivity.
Qed.

(** *** The loop over the scm entries *)

Lemma for_each_app {A B} (body : A -> B -> M A) l1 l2 acc w :
  for_each body (l1 ++ l2) acc w =
  bind (for_each body l1 acc) (for_each body l2) w.
Proof.
  revert acc w. induction l1 as [|x l1 IH]; intros acc w.
  - reflexivity.
  - cbn [for_each app]. unfold bind.
    destruct (body acc x w) as [[acc'|e] w1].
    + rewrite IH. reflexivity.
    + reflexivity.
Qed.

Lemma root_xml_sources_no_scm md w :
  dict_lookup "scm" md = None ->
  root_xml_sources git container_repr (PDict md) w =
  (Ok (sources_node (Element "data")), w).
Proof.
  intros H. unfold root_xml_sources, bind, lift, ret.
  cbn [py_in]. unfold dict_has. rewrite H. reflexivity.
Qed.

Lemma root_xml_sources_scm md scm w :
  dict_lookup "scm" md = Some scm ->
  root_xml_sources git container_repr (PDict md) w =
  (items <- lift (py_iter scm) ;;
   sources_data <-
     for_each (scm_step git container_repr) items (Element "data") ;;
   ret (sources_node sources_data)) w.
Proof.
  intros H. unfold root_xml_sources. unfold bind at 1. unfold lift at 1.
  cbn [py_in]. unfold dict_has. rewrite H.
  unfold bind at 1. unfold bind at 1. unfold lift at 1.
  cbn [py_getitem]. rewrite H.
  unfold bind, lift, ret.
  destruct (py_iter scm) as [items|err]; [|reflexivity].
  destruct (for_each _ items (Element "data") w) as [[sd|err] w1];
    reflexivity.
Qed.

(** [root_xml] on a record with the two required fields of the periodic
    folder trigger and a list of scm entries: everything but the loop over
    the entries is settled. *)
Lemma root_xml_scm_list d md spec interval entries :
  dict_lookup "multibranch" d = Some (PDict md) ->
  dict_lookup "periodic-folder-spec" md = Some spec ->
  dict_lookup "periodic-folder-interval" md = Some interval ->
  dict_lookup "scm" md = Some (PList entries) ->
  exists properties orphaned triggers,
    tag properties = "properties" /\
    (forall w, root_xml_orphaned_item_strategy container_repr (PDict md) w
               = (Ok orphaned, w)) /\
    tag triggers = "triggers" /\
    forall w,
      root_xml git container_repr (PDict d) w =
      (sources_data <-
         for_each (scm_step git container_repr) entries (Element "data") ;;
       ret (mkElement
              "org.jenkinsci.plugins.workflow.multibranch.WorkflowMultiBranchProject"
              [("plugin", "workflow-multibranch")] PNone
              [properties; root_xml_views; root_xml_views_tab_bar;
               root_xml_health_metrics; root_xml_icon; orphaned;
               triggers; sources_node sources_data; root_xml_factory])) w.
Proof.
  intros Hmb Hs Hi Hscm.
  destruct (root_xml_properties_dict md) as (props & Hp & Htag).
  destruct (root_xml_triggers_dict md spec interval Hs Hi)
    as (trig & Ht & Httag & _).
  exists props. eexists. exists trig.
  split; [exact Htag|].
  split; [intros w; apply root_xml_orphaned_item_strategy_dict|].
  split; [exact Httag|].
  intros w. rewrite (root_xml_multibranch _ _ _ Hmb).
  rewrite (bind_Ok _ _ _ _ _ (Hp w)).
  rewrite (bind_Ok _ _ _ _ _ (root_xml_orphaned_item_strategy_dict md w)).
  rewrite (bind_Ok _ _ _ _ _ (Ht w)).
  unfold bind at 1. rewrite (root_xml_sources_scm _ _ _ Hscm).
  unfold bind, lift, ret. cbn [py_iter].
  destruct (for_each _ entries (Element "data") w) as [[sd|err] w1];
    reflexivity.
Qed.

(** *** Required fields *)

Lemma generate_source_strategy_no_KeyError xml_parent data w k :
  fst (generate_source_strategy container_repr xml_parent data w)
  <> Raise (KeyError k).
Proof.
  destruct (py_in "exceptions" data) as [[|]|err] eqn:Hin.
  - destruct data as [| | | s | l | s]; try discriminate Hin.
    + unfold generate_source_strategy, bind, lift. rewrite Hin. cbn.
      discriminate.
    + unfold generate_source_strategy, bind, lift. rewrite Hin. cbn.
      discriminate.
    + cbn in Hin. unfold dict_has in Hin.
      destruct (dict_lookup "exceptions" s) as [x|] eqn:Hx;
        [|discriminate Hin].
      destruct (py_iter x) as [items|err] eqn:Hit.
      * rewrite (generate_source_strategy_named _ (PDict s) x items);
          [cbn; discriminate
          | cbn; unfold dict_has; rewrite Hx; reflexivity
          | cbn; rewrite Hx; reflexivity
          | exact Hit].
      * unfold generate_source_strategy, bind, lift. cbn [py_in py_getitem].
        unfold dict_has. rewrite Hx. cbn. rewrite Hit.
        destruct x; cbn in Hit; try discriminate Hit;
          inversion Hit; cbn; discriminate.
  - rewrite generate_source_strategy_simple by exact Hin. cbn. discriminate.
  - unfold generate_source_strategy, bind, lift. rewrite Hin. cbn.
    destruct data; cbn in Hin; try discriminate Hin;
      inversion Hin; discriminate.
Qed.

Lemma has_git_inv x :
  has_git x = true ->
  exists e git_spec, x = PDict e /\ dict_lookup "git" e = Some git_spec.
Proof.
  destruct x as [| | | | |e]; try discriminate. cbn. unfold dict_has.
  destruct (dict_lookup "git" e) as [gs|] eqn:H; [|discriminate].
  intros _. exists e, gs. split; [reflexivity | exact H].
Qed.

Lemma scm_step_no_KeyError sources_data x w k :
  (forall e g, x = PDict e -> dict_lookup "git" e = Some (PDict g) ->
               dict_lookup "url" g <> None /\
               dict_lookup "credentials-id" g <> None) ->
  fst (scm_step git container_repr sources_data x w) <> Raise (KeyError k).
Proof.
  intros Hreq. destruct (has_git x) eqn:Hg.
  2:{ rewrite scm_step_skip by exact Hg. cbn. discriminate. }
  destruct (has_git_inv _ Hg) as (e & gs & -> & Hgs).
  rewrite (scm_step_git _ _ _ _ Hgs).
  destruct (isinstance_dict gs) eqn:Hd.
  2:{ erewrite bind_Raise
        by (apply generate_git_scm_xml_not_dict; exact Hd).
      cbn. discriminate. }
  destruct gs as [| | | | |g]; try discriminate Hd.
  destruct (Hreq e g eq_refl Hgs) as [Hu Hc].
  destruct (dict_lookup "url" g) as [u|] eqn:Eu; [|congruence].
  destruct (dict_lookup "credentials-id" g) as [c|] eqn:Ec; [|congruence].
  unfold bind at 1. rewrite (generate_git_scm_xml_dict _ _ _ u c Eu Ec).
  destruct (git (Element "temp-git") (PDict g)) as [t|what];
    [|cbn; discriminate].
  unfold bind at 1. unfold lift at 1. cbn [py_in]. unfold dict_has.
  destruct (dict_lookup "strategy" g) as [st|] eqn:Est.
  - unfold bind at 1. unfold bind at 1. unfold lift at 1.
    cbn [py_getitem]. rewrite Est.
    match goal with
    | |- context [generate_source_strategy ?r ?p ?d ?w0] =>
        pose proof (generate_source_strategy_no_KeyError p d w0 k) as Hn;
        destruct (generate_source_strategy r p d w0) as [[bs|err] w2]
    end.
    + cbn. discriminate.
    + cbn in *. exact Hn.
  - cbn. discriminate.
Qed.

Lemma for_each_scm_no_KeyError items sources_data w k :
  (forall e g, In (PDict e) items -> dict_lookup "git" e = Some (PDict g) ->
               dict_lookup "url" g <> None /\
               dict_lookup "credentials-id" g <> None) ->
  fst (for_each (scm_step git container_repr) items sources_data w)
  <> Raise (KeyError k).
Proof.
  revert sources_data w. induction items as [|x items IH];
    intros sd w Hreq.
  - cbn. discriminate.
  - cbn [for_each]. unfold bind.
    pose proof (scm_step_no_KeyError sd x w k) as Hx.
    destruct (scm_step git container_repr sd x w) as [[sd'|err] w1].
    + apply IH. intros e g Hin. apply Hreq. right. exact Hin.
    + cbn in *. apply Hx. intros e g ->. apply Hreq. left. reflexivity.
Qed.

Lemma chars_no_dict s e : ~ In (PDict e) (chars s).
Proof.
  induction s as [|c s IH]; cbn.
  - tauto.
  - intros [H|H]; [discriminate H | exact (IH H)].
Qed.

Lemma keys_no_dict (l : list string) e : ~ In (PDict e) (map PStr l).
Proof.
  induction l as [|c l IH]; cbn.
  - tauto.
  - intros [H|H]; [discriminate H | exact (IH H)].
Qed.

(** C2: the four required fields.  With [multibranch] a mapping: without
    [periodic-folder-spec], or with it but without
    [periodic-folder-interval], [root_xml] raises the [KeyError] that names
    the field and returns no document.  With both there, when the loop
    reaches an scm entry whose git spec is a mapping without [url], or with
    [url] but without [credentials-id], it raises the [KeyError] that names
    that field.  Conversely, when the two trigger fields are there and every
    git spec that is a mapping has [url] and [credentials-id], [root_xml]
    raises no [KeyError] at all. *)
Theorem required_fields_lookup_errors d md w :
  dict_lookup "multibranch" d = Some (PDict md) ->
  (dict_lookup "periodic-folder-spec" md = None ->
   root_xml git container_repr (PDict d) w =
   (Raise (KeyError "periodic-folder-spec"), w))
  /\
  (dict_lookup "periodic-folder-spec" md <> None ->
   dict_lookup "periodic-folder-interval" md = None ->
   root_xml git container_repr (PDict d) w =
   (Raise (KeyError "periodic-folder-interval"), w))
  /\
  (dict_lookup "periodic-folder-spec" md <> None ->
   dict_lookup "periodic-folder-interval" md <> None ->
   forall pre e g post sources_data w1,
     dict_lookup "scm" md = Some (PList (pre ++ PDict e :: post)) ->
     dict_lookup "git" e = Some (PDict g) ->
     for_each (scm_step git container_repr) pre (Element "data") w
     = (Ok sources_data, w1) ->
     (dict_lookup "url" g = None ->
      fst (root_xml git container_repr (PDict d) w) = Raise (KeyError "url"))
     /\
     (dict_lookup "url" g <> None ->
      dict_lookup "credentials-id" g = None ->
      fst (root_xml git container_repr (PDict d) w)
      = Raise (KeyError "credentials-id")))
  /\
  (dict_lookup "periodic-folder-spec" md <> None ->
   dict_lookup "periodic-folder-interval" md <> None ->
   (forall entries e g,
       dict_lookup "scm" md = Some (PList entries) ->
       In (PDict e) entries ->
       dict_lookup "git" e = Some (PDict g) ->
       dict_lookup "url" g <> None /\
       dict_lookup "credentials-id" g <> None) ->
   forall k,
     fst (root_xml git container_repr (PDict d) w) <> Raise (KeyError k)).
Proof.
  intros Hmb.
  destruct (root_xml_properties_dict md) as (props & Hp & Htag).
  pose proof (root_xml_orphaned_item_strategy_dict md) as Ho.
  split; [|split; [|split]].
  - intros Hs. rewrite (root_xml_multibranch _ _ _ Hmb).
    rewrite (bind_Ok _ _ _ _ _ (Hp w)), (bind_Ok _ _ _ _ _ (Ho w)).
    apply bind_Raise. apply root_xml_triggers_no_spec. exact Hs.
  - intros Hs Hi. rewrite (root_xml_multibranch _ _ _ Hmb).
    rewrite (bind_Ok _ _ _ _ _ (Hp w)), (bind_Ok _ _ _ _ _ (Ho w)).
    apply bind_Raise.
    destruct (dict_lookup "periodic-folder-spec" md) as [spec|] eqn:Es;
      [|congruence].
    apply (root_xml_triggers_no_interval md w spec); assumption.
  - intros Hs Hi pre e g post sd w1 Hscm Hgit Hpre.
    destruct (dict_lookup "periodic-folder-spec" md) as [spec|] eqn:Es;
      [|congruence].
    destruct (dict_lookup "periodic-folder-interval" md) as [itv|] eqn:Ei;
      [|congruence].
    destruct (root_xml_scm_list d md spec itv _ Hmb Es Ei Hscm)
      as (p' & o' & t' & _ & _ & _ & Hroot).
    assert (Hfail : forall err w2,
               generate_git_scm_xml git container_repr
                 (Element "jenkins.branch.BranchSource") (PDict g)
                 (logged [("git_data = " ++ str (PDict e))%string] w1)
               = (Raise err, w2) ->
               fst (root_xml git container_repr (PDict d) w) = Raise err).
    { intros err w2 Hraise. rewrite Hroot.
      erewrite bind_Raise; [reflexivity|].
      rewrite for_each_app. rewrite (bind_Ok _ _ _ _ _ Hpre).
      cbn [for_each]. apply bind_Raise.
      rewrite (scm_step_git _ _ _ _ Hgit). apply bind_Raise. exact Hraise. }
    split.
    + intros Hu. eapply Hfail.
      apply generate_git_scm_xml_no_url. exact Hu.
    + intros Hu Hc.
      destruct (dict_lookup "url" g) as [u|] eqn:Eu; [|congruence].
      eapply Hfail.
      apply (generate_git_scm_xml_no_credentials _ _ _ u); assumption.
  - intros Hs Hi Hreq k.
    destruct (dict_lookup "periodic-folder-spec" md) as [spec|] eqn:Es;
      [|congruence].
    destruct (dict_lookup "periodic-folder-interval" md) as [itv|] eqn:Ei;
      [|congruence].
    destruct (root_xml_triggers_dict md spec itv Es Ei)
      as (trig & Ht & _ & _).
    rewrite (root_xml_multibranch _ _ _ Hmb).
    rewrite (bind_Ok _ _ _ _ _ (Hp w)), (bind_Ok _ _ _ _ _ (Ho w)).
    rewrite (bind_Ok _ _ _ _ _ (Ht w)).
    unfold bind at 1.
    destruct (dict_lookup "scm" md) as [scm|] eqn:Escm.
    2:{ rewrite root_xml_sources_no_scm by exact Escm. cbn. discriminate. }
    rewrite (root_xml_sources_scm _ _ _ Escm).
    unfold bind at 1. unfold lift at 1.
    assert (Hloop : forall items,
               (forall e, In (PDict e) items ->
                          scm = PList items) ->
               forall sd w0,
                 fst (for_each (scm_step git container_repr) items sd w0)
                 <> Raise (KeyError k)).
    { intros items Hitems sd w0. apply for_each_scm_no_KeyError.
      intros e g Hin Hg. apply (Hreq items e g); try assumption.
      rewrite (Hitems e Hin). reflexivity. }
    destruct scm as [| | | s | l | dd]; cbn [py_iter];
      try (cbn; discriminate).
    + unfold bind.
      pose proof (Hloop (chars s)
                    (fun e Hin => match chars_no_dict s e Hin with end)
                    (Element "data") w) as Hl.
      destruct (for_each _ (chars s) (Element "data") w) as [[sd|err] w1];
        cbn in *; [discriminate | exact Hl].
    + unfold bind.
      pose proof (Hloop l (fun e Hin => eq_refl) (Element "data") w) as Hl.
      destruct (for_each _ l (Element "data") w) as [[sd|err] w1];
        cbn in *; [discriminate | exact Hl].
    + unfold bind.
      pose proof (Hloop (map PStr (dict_keys dd))
                    (fun e Hin => match keys_no_dict _ e Hin with end)
                    (Element "data") w) as Hl.
      destruct (for_each _ (map PStr (dict_keys dd)) (Element "data") w)
        as [[sd|err] w1]; cbn in *; [discriminate | exact Hl].
Qed.

(** *** A git value that is not a mapping *)

Lemma scm_step_git_not_dict sources_data e v w :
  dict_lookup "git" e = Some v ->
  isinstance_dict v = false ->
  scm_step git container_repr sources_data (PDict e) w =
  (Raise (AttributeError "get"),
   logged [("git_data = " ++ str (PDict e))%string] w).
Proof.
  intros Hg Hd. rewrite (scm_step_git _ _ _ _ Hg).
  apply bind_Raise. apply generate_git_scm_xml_not_dict. exact Hd.
Qed.

Lemma for_each_scm_bad_entry items e v :
  In (PDict e) items ->
  dict_lookup "git" e = Some v ->
  isinstance_dict v = false ->
  forall sources_data w,
  exists err,
    fst (for_each (scm_step git container_repr) items sources_data w)
    = Raise err.
Proof.
  intros Hin Hg Hd. induction items as [|x items IH]; intros sd w.
  - destruct Hin.
  - cbn [for_each]. unfold bind.
    destruct (scm_step git container_repr sd x w) as [[sd'|err] w1] eqn:Hx.
    + destruct Hin as [->|Hin].
      * rewrite (scm_step_git_not_dict _ _ _ _ Hg Hd) in Hx. discriminate Hx.
      * apply IH. exact Hin.
    + exists err. reflexivity.
Qed.

(** C9: an scm entry that is a mapping with the key [git] whose value is
    not a mapping is not skipped.  The step of the loop for it raises the
    [AttributeError] of [data.get] after the first notice, without the
    notice of a skipped entry; a record with such an entry never yields a
    document; and when the entries before it were processed, the error
    [root_xml] ends with is that [AttributeError]. *)
Theorem git_value_not_a_mapping d md entries e v w :
  dict_lookup "multibranch" d = Some (PDict md) ->
  dict_lookup "scm" md = Some (PList entries) ->
  In (PDict e) entries ->
  dict_lookup "git" e = Some v ->
  isinstance_dict v = false ->
  (forall sources_data w0,
      scm_step git container_repr sources_data (PDict e) w0 =
      (Raise (AttributeError "get"),
       logged [("git_data = " ++ str (PDict e))%string] w0))
  /\
  (exists err, fst (root_xml git container_repr (PDict d) w) = Raise err)
  /\
  (forall pre post sources_data w1,
      dict_lookup "periodic-folder-spec" md <> None ->
      dict_lookup "periodic-folder-interval" md <> None ->
      entries = pre ++ PDict e :: post ->
      for_each (scm_step git container_repr) pre (Element "data") w
      = (Ok sources_data, w1) ->
      root_xml git container_repr (PDict d) w =
      (Raise (AttributeError "get"),
       logged [("git_data = " ++ str (PDict e))%string] w1)).
Proof.
  intros Hmb Hscm Hin Hg Hd.
  split; [|split].
  - intros sd w0. apply (scm_step_git_not_dict _ _ v); assumption.
  - rewrite (root_xml_multibranch _ _ _ Hmb).
    destruct (root_xml_properties_dict md) as (props & Hp & _).
    rewrite (bind_Ok _ _ _ _ _ (Hp w)).
    rewrite (bind_Ok _ _ _ _ _ (root_xml_orphaned_item_strategy_dict md w)).
    unfold bind at 1.
    destruct (root_xml_triggers (PDict md) w) as [[trig|err] w1];
      [|exists err; reflexivity].
    unfold bind at 1. rewrite (root_xml_sources_scm _ _ _ Hscm).
    unfold bind at 1. unfold lift at 1. cbn [py_iter].
    unfold bind at 1.
    destruct (for_each_scm_bad_entry entries e v Hin Hg Hd
                (Element "data") w1) as [err Herr].
    destruct (for_each _ entries (Element "data") w1) as [[sd|err'] w2].
    + discriminate Herr.
    + exists err'. reflexivity.
  - intros pre post sd w1 Hs Hi -> Hpre.
    destruct (dict_lookup "periodic-folder-spec" md) as [spec|] eqn:Es;
      [|congruence].
    destruct (dict_lookup "periodic-folder-interval" md) as [itv|] eqn:Ei;
      [|congruence].
    destruct (root_xml_scm_list d md spec itv _ Hmb Es Ei Hscm)
      as (p' & o' & t' & _ & _ & _ & Hroot).
    rewrite Hroot. apply bind_Raise.
    rewrite for_each_app. rewrite (bind_Ok _ _ _ _ _ Hpre).
    cbn [for_each]. apply bind_Raise.
    apply (scm_step_git_not_dict _ _ v); assumption.
Qed.

(** *** Entries that are skipped *)

Lemma frame_ret {A} (a : A) : frame (ret a).
Proof. intros l w. reflexivity. Qed.

Lemma frame_lift {A} (r : result A) : frame (lift r).
Proof. intros l w. reflexivity. Qed.

Lemma frame_warn msg : frame (warn msg).
Proof. intros l w. unfold warn. cbn. rewrite app_assoc. reflexivity. Qed.

Lemma frame_uuid4 : frame uuid4.
Proof. intros l w. reflexivity. Qed.

Lemma frame_bind {A B} (m : M A) (f : A -> M B) :
  frame m -> (forall a, frame (f a)) -> frame (bind m f).
Proof.
  intros Hm Hf l w. unfold bind. rewrite Hm.
  destruct (m w) as [[a|e] w1]; cbn [fst snd].
  - apply Hf.
  - reflexivity.
Qed.

Lemma frame_for_each {A B} (body : A -> B -> M A) items :
  (forall acc x, frame (body acc x)) ->
  forall acc, frame (for_each body items acc).
Proof.
  intros Hb. induction items as [|x items IH]; intros acc.
  - apply frame_ret.
  - cbn [for_each]. apply frame_bind; [apply Hb | exact IH].
Qed.

Ltac frame_steps :=
  repeat match goal with
  | |- frame (ret _) => apply frame_ret
  | |- frame (lift _) => apply frame_lift
  | |- frame (warn _) => apply frame_warn
  | |- frame uuid4 => apply frame_uuid4
  | |- frame (bind _ _) => apply frame_bind; [|intros ?; cbv beta]
  | |- frame (if ?b then _ else _) => destruct b
  | |- frame (let '(_, _) := ?p in _) => destruct p
  end.

Lemma frame_generate_source_strategy xml_parent data :
  frame (generate_source_strategy container_repr xml_parent data).
Proof.
  unfold generate_source_strategy. frame_steps.
  apply frame_for_each. intros acc x. unfold named_exception_step.
  frame_steps.
Qed.

Lemma frame_generate_git_scm_xml xml_parent data :
  frame (generate_git_scm_xml git container_repr xml_parent data).
Proof. unfold generate_git_scm_xml. frame_steps. Qed.

Lemma frame_scm_step sources_data x :
  frame (scm_step git container_repr sources_data x).
Proof.
  unfold scm_step. frame_steps.
  - apply frame_generate_git_scm_xml.
  - apply frame_generate_source_strategy.
  - unfold generate_default_source_strategy. frame_steps.
Qed.

(** A computation with the frame property sees of the world only the
    random source. *)
Lemma frame_entropy {A} (m : M A) w1 w2 :
  frame m ->
  entropy w1 = entropy w2 ->
  fst (m w1) = fst (m w2) /\
  entropy (snd (m w1)) = entropy (snd (m w2)).
Proof.
  intros Hm He.
  pose (w0 := mkWorld [] (entropy w1)).
  assert (H1 : w1 = mkWorld (warnings w1 ++ warnings w0) (entropy w0)).
  { destruct w1. cbn. rewrite app_nil_r. reflexivity. }
  assert (H2 : w2 = mkWorld (warnings w2 ++ warnings w0) (entropy w0)).
  { destruct w2. cbn in *. rewrite app_nil_r, He. reflexivity. }
  pose proof (Hm (warnings w1) w0) as E1. rewrite <- H1 in E1.
  pose proof (Hm (warnings w2) w0) as E2. rewrite <- H2 in E2.
  rewrite E1, E2. cbn. split; reflexivity.
Qed.

Lemma for_each_scm_filter entries :
  forall sources_data w1 w2,
    entropy w1 = entropy w2 ->
    fst (for_each (scm_step git container_repr) entries sources_data w1) =
    fst (for_each (scm_step git container_repr) (filter has_git entries)
           sources_data w2).
Proof.
  induction entries as [|x entries IH]; intros sd w1 w2 He.
  - reflexivity.
  - cbn [for_each filter]. destruct (has_git x) eqn:Hx.
    + cbn [for_each]. unfold bind.
      destruct (frame_entropy _ w1 w2 (frame_scm_step sd x) He) as [Hr Hw].
      destruct (scm_step git container_repr sd x w1) as [r1 w1'].
      destruct (scm_step git container_repr sd x w2) as [r2 w2'].
      cbn in Hr, Hw. subst r2. destruct r1 as [sd'|err].
      * apply IH. exact Hw.
      * reflexivity.
    + unfold bind. rewrite scm_step_skip by exact Hx.
      apply IH. exact He.
Qed.

Lemma for_each_scm_all_skipped entries :
  (forall x, In x entries -> has_git x = false) ->
  forall sources_data w,
    for_each (scm_step git container_repr) entries sources_data w =
    (Ok sources_data,
     logged (flat_map (skip_notices container_repr) entries) w).
Proof.
  induction entries as [|x entries IH]; intros Hall sd w.
  - cbn. unfold logged. rewrite app_nil_r. destruct w; reflexivity.
  - cbn [for_each flat_map]. unfold bind.
    rewrite scm_step_skip by (apply Hall; left; reflexivity).
    rewrite IH by (intros y Hy; apply Hall; right; exact Hy).
    rewrite logged_logged. reflexivity.
Qed.

Lemma root_xml_properties_ext md md' w :
  dict_lookup "env-properties" md = dict_lookup "env-properties" md' ->
  root_xml_properties (PDict md) w = root_xml_properties (PDict md') w.
Proof.
  intros H. unfold root_xml_properties, bind, lift.
  cbn [py_in py_getitem]. unfold dict_has. rewrite H. reflexivity.
Qed.

Lemma root_xml_orphaned_item_strategy_ext md md' w :
  dict_lookup "prune-dead-branches" md
  = dict_lookup "prune-dead-branches" md' ->
  dict_lookup "days-to-keep" md = dict_lookup "days-to-keep" md' ->
  dict_lookup "number-to-keep" md = dict_lookup "number-to-keep" md' ->
  root_xml_orphaned_item_strategy container_repr (PDict md) w =
  root_xml_orphaned_item_strategy container_repr (PDict md') w.
Proof.
  intros H1 H2 H3. rewrite !root_xml_orphaned_item_strategy_dict.
  unfold lookup_default. rewrite H1, H2, H3. reflexivity.
Qed.

Lemma root_xml_triggers_ext md md' w :
  dict_lookup "timer-trigger" md = dict_lookup "timer-trigger" md' ->
  dict_lookup "periodic-folder-spec" md
  = dict_lookup "periodic-folder-spec" md' ->
  dict_lookup "periodic-folder-interval" md
  = dict_lookup "periodic-folder-interval" md' ->
  root_xml_triggers (PDict md) w = root_xml_triggers (PDict md') w.
Proof.
  intros H1 H2 H3. unfold root_xml_triggers, bind, lift.
  cbn [py_in py_getitem]. unfold dict_has. rewrite H1, H2, H3. reflexivity.
Qed.

Lemma root_xml_triggers_world md w r w' :
  root_xml_triggers (PDict md) w = (r, w') -> w' = w.
Proof.
  unfold root_xml_triggers, bind, lift, ret. cbn [py_in py_getitem].
  unfold dict_has.
  destruct (dict_lookup "timer-trigger" md);
    destruct (dict_lookup "periodic-folder-spec" md);
    destruct (dict_lookup "periodic-folder-interval" md);
    intros H; inversion H; reflexivity.
Qed.

(** Entries of the [scm] sequence that are not mappings or have no [git]
    key.  The step of the loop for such an entry logs its two notices and
    leaves the [data] element as it was, raising nothing; the outcome of
    [root_xml] (the document, or the error of an entry that is processed) is
    the one of the record without these entries; and when all entries are of
    this kind the document is returned, with an empty [data] element, after
    the notices of every entry. *)
Lemma skipped_entries_same_outcome d d' md md' entries w :
  dict_lookup "multibranch" d = Some (PDict md) ->
  dict_lookup "scm" md = Some (PList entries) ->
  dict_lookup "multibranch" d' = Some (PDict md') ->
  dict_lookup "scm" md' = Some (PList (filter has_git entries)) ->
  (forall k, k <> "scm" -> dict_lookup k md' = dict_lookup k md) ->
  (forall x sources_data w0,
      In x entries -> has_git x = false ->
      scm_step git container_repr sources_data x w0 =
      (Ok sources_data,
       logged [("git_data = " ++ str x)%string; "We cannot process scm"] w0))
  /\
  fst (root_xml git container_repr (PDict d) w)
  = fst (root_xml git container_repr (PDict d') w)
  /\
  (dict_lookup "periodic-folder-spec" md <> None ->
   dict_lookup "periodic-folder-interval" md <> None ->
   (forall x, In x entries -> has_git x = false) ->
   exists doc,
     root_xml git container_repr (PDict d) w =
     (Ok doc,
      logged (flat_map
                (fun x => [("git_data = " ++ str x)%string;
                           "We cannot process scm"]) entries) w) /\
     find "sources" doc = Some (sources_node (Element "data"))).
Proof.
  intros Hmb Hscm Hmb' Hscm' Hsame.
  split; [|split].
  - intros x sd w0 _ Hx. apply scm_step_skip. exact Hx.
  - rewrite (root_xml_multibranch _ _ _ Hmb), (root_xml_multibranch _ _ _ Hmb').
    apply fst_bind_same.
    { apply root_xml_properties_ext. symmetry. apply Hsame. discriminate. }
    intros props w1 Hp. apply root_xml_properties_tag in Hp.
    destruct Hp as [_ ->].
    apply fst_bind_same.
    { apply root_xml_orphaned_item_strategy_ext;
        symmetry; apply Hsame; discriminate. }
    intros orph w1 Ho. rewrite root_xml_orphaned_item_strategy_dict in Ho.
    inversion Ho; subst w1; clear Ho.
    apply fst_bind_same.
    { apply root_xml_triggers_ext; symmetry; apply Hsame; discriminate. }
    intros trig w1 Et. apply root_xml_triggers_world in Et. subst w1.
    apply fst_bind_fst; [|reflexivity].
    rewrite (root_xml_sources_scm _ _ _ Hscm), (root_xml_sources_scm _ _ _ Hscm').
    unfold bind at 1 3. unfold lift at 1 2. cbn [py_iter].
    apply fst_bind_fst; [|reflexivity].
    apply for_each_scm_filter. reflexivity.
  - intros Hs Hi Hall.
    destruct (dict_lookup "periodic-folder-spec" md) as [spec|] eqn:Es;
      [|congruence].
    destruct (dict_lookup "periodic-folder-interval" md) as [itv|] eqn:Ei;
      [|congruence].
    destruct (root_xml_scm_list d md spec itv _ Hmb Es Ei Hscm)
      as (p' & o' & t' & Hpt & Ho & Htt & Hroot).
    rewrite Hroot.
    rewrite (bind_Ok _ _ _ _ _
               (for_each_scm_all_skipped entries Hall (Element "data") w)).
    eexists. split; [reflexivity|].
    unfold find. cbn [children List.find]. rewrite Hpt, Htt.
    pose proof (Ho w) as Ho1.
    rewrite root_xml_orphaned_item_strategy_dict in Ho1.
    inversion Ho1. reflexivity.
Qed.

(** *** The scratch element *)

Lemma occurs_append t c p :
  occurs t (append c p) = occurs t p || occurs t c.
Proof.
  destruct p as [ptag pattrib ptext pchildren]. cbn. rewrite existsb_app. cbn.
  rewrite orb_false_r, orb_assoc. reflexivity.
Qed.

Lemma clean_append c p : clean c -> clean p -> clean (append c p).
Proof.
  unfold clean. intros Hc Hp. rewrite occurs_append, Hc, Hp. reflexivity.
Qed.

Lemma named_entries_clean items :
  existsb (occurs "temp-git") (map named_entry items) = false.
Proof.
  induction items as [|x items IH]; [reflexivity|].
  cbn [map existsb]. rewrite IH. reflexivity.
Qed.

Lemma generate_source_strategy_clean xml_parent data w parent' w' :
  generate_source_strategy container_repr xml_parent data w
  = (Ok parent', w') ->
  clean xml_parent -> clean parent'.
Proof.
  unfold generate_source_strategy. intros H Hp. inv_all.
  - match goal with
    | H : for_each _ _ _ _ = _ |- _ =>
        rewrite for_each_named_exception_step in H; inversion H; subst
    end.
    apply clean_append; [|exact Hp].
    unfold clean. cbn. rewrite named_entries_clean. reflexivity.
  - apply clean_append; [reflexivity | exact Hp].
Qed.

Lemma generate_default_source_strategy_clean xml_parent w parent' w' :
  generate_default_source_strategy xml_parent w = (Ok parent', w') ->
  clean xml_parent -> clean parent'.
Proof.
  unfold generate_default_source_strategy. intros H Hp. inv_all.
  apply clean_append; [reflexivity | exact Hp].
Qed.

Lemma spliced_clean spec temp_xml :
  git_extensions_clean git ->
  git (Element "temp-git") spec = inl temp_xml ->
  existsb (occurs "temp-git") (spliced temp_xml) = false.
Proof.
  intros Hgit Hg. unfold spliced.
  destruct (find "scm" temp_xml) as [scm|] eqn:Hscm; [|reflexivity].
  destruct (find "extensions" scm) as [ext|] eqn:Hext; [|reflexivity].
  destruct (nonempty scm && nonempty ext); [|reflexivity].
  cbn. rewrite (Hgit _ _ _ _ Hg Hscm Hext). reflexivity.
Qed.

Lemma generate_git_scm_xml_clean xml_parent data w parent' w' :
  git_extensions_clean git ->
  generate_git_scm_xml git container_repr xml_parent data w
  = (Ok parent', w') ->
  clean xml_parent -> clean parent'.
Proof.
  intros Hgit H Hp.
  destruct (generate_git_scm_xml_Ok_inv _ _ _ _ _ H)
    as (g & u & c & t & -> & Hu & Hc & Hg).
  rewrite (generate_git_scm_xml_dict _ _ _ u c Hu Hc), Hg in H.
  inversion H; subst parent' w'; clear H.
  apply clean_append; [|exact Hp].
  pose proof (spliced_clean _ _ Hgit Hg) as Hs.
  unfold clean.
  destruct (dict_lookup "excludes" g); cbn; exact Hs.
Qed.

Lemma scm_step_clean sources_data x w sources_data' w' :
  git_extensions_clean git ->
  scm_step git container_repr sources_data x w = (Ok sources_data', w') ->
  clean sources_data -> clean sources_data'.
Proof.
  intros Hgit H Hp. unfold scm_step in H.
  apply bind_Ok_inv in H. destruct H as (? & w1 & _ & H).
  destruct (isinstance_dict x &&
            match py_in "git" x with Ok b => b | Raise _ => false end).
  - apply bind_Ok_inv in H. destruct H as (gs & ? & _ & H).
    apply bind_Ok_inv in H. destruct H as (bs & ? & Hbs & H).
    apply generate_git_scm_xml_clean in Hbs; [|exact Hgit|reflexivity].
    apply bind_Ok_inv in H. destruct H as (hs & ? & _ & H).
    apply bind_Ok_inv in H. destruct H as (bs' & ? & Hbs' & H).
    apply ret_Ok_inv in H. destruct H as [-> _].
    apply clean_append; [|exact Hp].
    destruct hs.
    + apply bind_Ok_inv in Hbs'. destruct Hbs' as (st & ? & _ & Hbs').
      eapply generate_source_strategy_clean; eassumption.
    + eapply generate_default_source_strategy_clean; eassumption.
  - inv_all. exact Hp.
Qed.

Lemma for_each_scm_clean items :
  git_extensions_clean git ->
  forall sources_data w sources_data' w',
    for_each (scm_step git container_repr) items sources_data w
    = (Ok sources_data', w') ->
    clean sources_data -> clean sources_data'.
Proof.
  intros Hgit. induction items as [|x items IH]; intros sd w sd' w' H Hp.
  - cbn in H. inv_all. exact Hp.
  - cbn [for_each] in H. apply bind_Ok_inv in H.
    destruct H as (sd1 & w1 & Hx & H).
    apply (IH _ _ _ _ H). eapply scm_step_clean; eassumption.
Qed.

Lemma root_xml_properties_clean project_def :
  post clean (root_xml_properties project_def).
Proof.
  intros w a w' H. unfold root_xml_properties in H. inv_all; reflexivity.
Qed.

Lemma root_xml_orphaned_item_strategy_clean project_def :
  post clean (root_xml_orphaned_item_strategy container_repr project_def).
Proof.
  intros w a w' H. unfold root_xml_orphaned_item_strategy in H.
  inv_all; reflexivity.
Qed.

Lemma root_xml_triggers_clean project_def :
  post clean (root_xml_triggers project_def).
Proof.
  intros w a w' H. unfold root_xml_triggers in H. inv_all; reflexivity.
Qed.

Lemma root_xml_sources_clean project_def :
  git_extensions_clean git ->
  post clean (root_xml_sources git container_repr project_def).
Proof.
  intros Hgit w a w' H. unfold root_xml_sources in H.
  apply bind_Ok_inv in H. destruct H as (hs & ? & _ & H).
  apply bind_Ok_inv in H. destruct H as (sd & ? & Hsd & H).
  apply ret_Ok_inv in H. destruct H as [-> _].
  assert (Hc : clean sd).
  { destruct hs.
    - apply bind_Ok_inv in Hsd. destruct Hsd as (? & ? & _ & Hsd).
      apply bind_Ok_inv in Hsd. destruct Hsd as (items & ? & _ & Hsd).
      eapply for_each_scm_clean; [exact Hgit | exact Hsd | reflexivity].
    - inv_all. reflexivity. }
  repeat apply clean_append; try reflexivity. exact Hc.
Qed.

(** C10: the scratch element never reaches the result.  Whenever
    [generate_git_scm_xml] returns, none of the children of the [source]
    node it has added is tagged [temp-git], whether or not an [extensions]
    element was taken over.  And in a document [root_xml] returns no node is
    tagged [temp-git], as long as the collaborator itself puts no node of
    that tag inside the [extensions] element it hands back. *)
Theorem scratch_node_removed :
  (forall xml_parent spec w parent' w',
      generate_git_scm_xml git container_repr xml_parent spec w
      = (Ok parent', w') ->
      exists source,
        children parent' = children xml_parent ++ [source] /\
        tag source = "source" /\
        forallb (fun c => negb (String.eqb (tag c) "temp-git"))
                (children source) = true)
  /\
  (git_extensions_clean git ->
   forall data w doc w',
     root_xml git container_repr data w = (Ok doc, w') ->
     occurs "temp-git" doc = false).
Proof.
  split.
  - intros xml_parent spec w parent' w' H.
    destruct (generate_git_scm_xml_Ok_inv _ _ _ _ _ H)
      as (g & u & c & t & -> & Hu & Hc & Hg).
    rewrite (generate_git_scm_xml_dict _ _ _ u c Hu Hc), Hg in H.
    inversion H; subst parent' w'; clear H.
    eexists. split; [reflexivity|]. split; [reflexivity|].
    assert (Hs : forallb (fun c0 => negb (String.eqb (tag c0) "temp-git"))
                         (spliced t) = true).
    { destruct (spliced_cases t) as [->|(ext & -> & Ht)]; [reflexivity|].
      cbn. rewrite Ht. reflexivity. }
    destruct (dict_lookup "excludes" g); cbn; exact Hs.
  - intros Hgit data w doc w' H. unfold root_xml in H.
    apply bind_Ok_inv in H. destruct H as (hm & ? & _ & H).
    destruct (negb hm).
    + inv_all. reflexivity.
    + apply bind_Ok_inv in H. destruct H as (pd & ? & _ & H).
      apply bind_Ok_inv in H. destruct H as (props & ? & Hp & H).
      apply bind_Ok_inv in H. destruct H as (orph & ? & Ho & H).
      apply bind_Ok_inv in H. destruct H as (trig & ? & Ht & H).
      apply bind_Ok_inv in H. destruct H as (srcs & ? & Hs & H).
      apply ret_Ok_inv in H. destruct H as [-> _].
      apply root_xml_properties_clean in Hp.
      apply root_xml_orphaned_item_strategy_clean in Ho.
      apply root_xml_triggers_clean in Ht.
      apply (root_xml_sources_clean _ Hgit) in Hs.
      repeat apply clean_append; try assumption; reflexivity.
Qed.

(** *** Two runs on the same record *)

Lemma sim_ret {A} (R : A -> A -> Prop) a1 a2 :
  R a1 a2 -> sim R (ret a1) (ret a2).
Proof. intros H w1 w2. exact H. Qed.

Lemma sim_lift {A} (r : result A) : sim eq (lift r) (lift r).
Proof. intros w1 w2. destruct r; reflexivity. Qed.

Lemma sim_warn msg1 msg2 : sim (fun _ _ => True) (warn msg1) (warn msg2).
Proof. intros w1 w2. exact I. Qed.

Lemma sim_bind {A B} (RA : A -> A -> Prop) (RB : B -> B -> Prop)
      (m1 m2 : M A) (f1 f2 : A -> M B) :
  sim RA m1 m2 ->
  (forall a1 a2, RA a1 a2 -> sim RB (f1 a1) (f2 a2)) ->
  sim RB (bind m1 f1) (bind m2 f2).
Proof.
  intros Hm Hf w1 w2. unfold bind. specialize (Hm w1 w2).
  destruct (m1 w1) as [[a1|e1] w1'], (m2 w2) as [[a2|e2] w2'];
    cbn in Hm; try contradiction.
  - apply Hf. exact Hm.
  - exact Hm.
Qed.

Lemma sim_for_each {A B} (R : A -> A -> Prop) (body : A -> B -> M A) items :
  (forall a1 a2 x, R a1 a2 -> sim R (body a1 x) (body a2 x)) ->
  forall a1 a2, R a1 a2 ->
                sim R (for_each body items a1) (for_each body items a2).
Proof.
  intros Hb. induction items as [|x items IH]; intros a1 a2 Ha.
  - apply sim_ret. exact Ha.
  - cbn [for_each]. eapply sim_bind; [apply Hb; exact Ha | exact IH].
Qed.

Ltac sim_steps :=
  repeat match goal with
  | |- sim _ (ret _) (ret _) => apply sim_ret
  | |- sim _ (bind (lift ?r) _) (bind (lift ?r) _) =>
      apply sim_bind with (RA := eq);
      [apply sim_lift | intros ? ? <-; cbv beta]
  | |- sim _ (bind (warn _) _) (bind (warn _) _) =>
      apply sim_bind with (RA := fun _ _ => True);
      [apply sim_warn | intros ? ? _; cbv beta]
  | |- sim _ (if ?b then _ else _) (if ?b then _ else _) => destruct b
  end.

Lemma same_but_refl t path e : tag e = t -> same_but t path e e.
Proof. intros H. repeat split; assumption. Qed.

Lemma same_but_append_same t hd path c p1 p2 :
  same_but t (hd :: path) p1 p2 ->
  same_but t (hd :: path) (append c p1) (append c p2).
Proof.
  intros (H1 & H2 & H). repeat split; try assumption.
  cbn in *. inversion H. rewrite !map_app. congruence.
Qed.

Lemma same_but_append_hit t hd path c1 c2 p1 p2 :
  same_but hd path c1 c2 ->
  same_but t (hd :: path) p1 p2 ->
  same_but t (hd :: path) (append c1 p1) (append c2 p2).
Proof.
  intros (Hc1 & Hc2 & Hc) (H1 & H2 & H). repeat split; try assumption.
  cbn in *. inversion H. rewrite !map_app. cbn.
  rewrite Hc1, Hc2, String.eqb_refl, Hc. congruence.
Qed.

Lemma generate_git_scm_xml_sim xml_parent data :
  tag xml_parent = "jenkins.branch.BranchSource" ->
  sim (same_but "jenkins.branch.BranchSource" ["source"; "id"])
      (generate_git_scm_xml git container_repr xml_parent data)
      (generate_git_scm_xml git container_repr xml_parent data).
Proof.
  intros Htag w1 w2.
  destruct (isinstance_dict data) eqn:Hd.
  2:{ rewrite !generate_git_scm_xml_not_dict by exact Hd. reflexivity. }
  destruct data as [| | | | |g]; try discriminate Hd.
  destruct (dict_lookup "url" g) as [u|] eqn:Hu.
  2:{ rewrite !generate_git_scm_xml_no_url by exact Hu. reflexivity. }
  destruct (dict_lookup "credentials-id" g) as [c|] eqn:Hc.
  2:{ rewrite !(generate_git_scm_xml_no_credentials _ _ _ u) by assumption.
      reflexivity. }
  rewrite !(generate_git_scm_xml_dict _ _ _ u c Hu Hc).
  destruct (git (Element "temp-git") (PDict g)) as [t|what];
    [|reflexivity].
  cbn [fst rel_result].
  apply same_but_append_hit; [|apply same_but_refl; exact Htag].
  repeat split.
  destruct (dict_lookup "excludes" g); reflexivity.
Qed.

Lemma generate_source_strategy_sim t hd path p1 p2 data :
  same_but t (hd :: path) p1 p2 ->
  sim (same_but t (hd :: path))
      (generate_source_strategy container_repr p1 data)
      (generate_source_strategy container_repr p2 data).
Proof.
  intros Hp. unfold generate_source_strategy. sim_steps.
  - apply sim_bind with (RA := eq).
    + intros w1 w2. rewrite !for_each_named_exception_step. reflexivity.
    + intros ? ? <-. apply sim_ret. apply same_but_append_same. exact Hp.
  - apply same_but_append_same. exact Hp.
Qed.

Lemma scm_step_sim sd1 sd2 x :
  same_but "data" ["jenkins.branch.BranchSource"; "source"; "id"] sd1 sd2 ->
  sim (same_but "data" ["jenkins.branch.BranchSource"; "source"; "id"])
      (scm_step git container_repr sd1 x)
      (scm_step git container_repr sd2 x).
Proof.
  intros Hsd. unfold scm_step. sim_steps; [|exact Hsd].
  apply sim_bind
    with (RA := same_but "jenkins.branch.BranchSource" ["source"; "id"]).
  { apply generate_git_scm_xml_sim. reflexivity. }
  intros bs1 bs2 Hbs. sim_steps.
  apply sim_bind
    with (RA := same_but "jenkins.branch.BranchSource" ["source"; "id"]).
  - sim_steps.
    + apply generate_source_strategy_sim. exact Hbs.
    + unfold generate_default_source_strategy. apply sim_ret.
      apply same_but_append_same. exact Hbs.
  - intros b1 b2 Hb. apply sim_ret.
    apply same_but_append_hit; assumption.
Qed.

Lemma root_xml_sources_sim project_def :
  sim (same_but "sources"
         ["data"; "jenkins.branch.BranchSource"; "source"; "id"])
      (root_xml_sources git container_repr project_def)
      (root_xml_sources git container_repr project_def).
Proof.
  unfold root_xml_sources. sim_steps.
  apply sim_bind
    with (RA := same_but "data"
                  ["jenkins.branch.BranchSource"; "source"; "id"]).
  - sim_steps.
    + apply sim_for_each.
      * intros acc1 acc2 x Ha. apply scm_step_sim. exact Ha.
      * apply same_but_refl. reflexivity.
    + apply same_but_refl. reflexivity.
  - intros sd1 sd2 Hsd. apply sim_ret.
    apply same_but_append_same. apply same_but_append_hit; [exact Hsd|].
    apply same_but_refl. reflexivity.
Qed.

Lemma root_xml_properties_sim project_def :
  sim eq (root_xml_properties project_def) (root_xml_properties project_def).
Proof. unfold root_xml_properties. sim_steps; reflexivity. Qed.

Lemma root_xml_orphaned_item_strategy_sim project_def :
  sim eq (root_xml_orphaned_item_strategy container_repr project_def)
      (root_xml_orphaned_item_strategy container_repr project_def).
Proof.
  unfold root_xml_orphaned_item_strategy. sim_steps.
  apply sim_bind with (RA := eq).
  - sim_steps; reflexivity.
  - intros ? ? <-. sim_steps. reflexivity.
Qed.

Lemma root_xml_triggers_sim project_def :
  sim eq (root_xml_triggers project_def) (root_xml_triggers project_def).
Proof.
  unfold root_xml_triggers. sim_steps.
  apply sim_bind with (RA := eq).
  - sim_steps; reflexivity.
  - intros ? ? <-. sim_steps. reflexivity.
Qed.

Lemma root_xml_sim data :
  sim (fun doc1 doc2 => scrub_at id_path doc1 = scrub_at id_path doc2)
      (root_xml git container_repr data) (root_xml git container_repr data).
Proof.
  unfold root_xml. sim_steps.
  - reflexivity.
  - apply sim_bind with (RA := eq); [apply root_xml_properties_sim|].
    intros props ? <-.
    apply sim_bind with (RA := eq);
      [apply root_xml_orphaned_item_strategy_sim|].
    intros orph ? <-.
    apply sim_bind with (RA := eq); [apply root_xml_triggers_sim|].
    intros trig ? <-.
    eapply sim_bind; [apply root_xml_sources_sim|].
    intros s1 s2 Hs. apply sim_ret.
    assert (H : same_but
                  "org.jenkinsci.plugins.workflow.multibranch.WorkflowMultiBranchProject"
                  id_path
                  (append root_xml_factory
                     (append s1
                        (append trig
                           (append orph
                              (append root_xml_icon
                                 (append root_xml_health_metrics
                                    (append root_xml_views_tab_bar
                                       (append root_xml_views
                                          (append props
                                             (set_attrib "plugin"
                                                "workflow-multibranch"
                                                (Element
                                                   "org.jenkinsci.plugins.workflow.multibranch.WorkflowMultiBranchProject")))))))))))
                  (append root_xml_factory
                     (append s2
                        (append trig
                           (append orph
                              (append root_xml_icon
                                 (append root_xml_health_metrics
                                    (append root_xml_views_tab_bar
                                       (append root_xml_views
                                          (append props
                                             (set_attrib "plugin"
                                                "workflow-multibranch"
                                                (Element
                                                   "org.jenkinsci.plugins.workflow.multibranch.WorkflowMultiBranchProject")))))))))))).
    { apply same_but_append_same. apply same_but_append_hit; [exact Hs|].
      apply same_but_refl. reflexivity. }
    destruct H as (_ & _ & H). exact H.
Qed.

(** C8: two runs of [root_xml] on the same record, with any two logs and
    any two random sources.  If one returns a document so does the other,
    and the two documents are equal once the text of the [id] child of each
    git source node (root, [sources], [data], branch source, [source],
    [id]) is left out; if one raises an exception the other raises the same
    one. *)
Theorem two_builds_same_modulo_ids data w1 w2 :
  (forall doc1 w1',
      root_xml git container_repr data w1 = (Ok doc1, w1') ->
      exists doc2 w2',
        root_xml git container_repr data w2 = (Ok doc2, w2') /\
        scrub_at
          ["sources"; "data"; "jenkins.branch.BranchSource"; "source"; "id"]
          doc1 =
        scrub_at
          ["sources"; "data"; "jenkins.branch.BranchSource"; "source"; "id"]
          doc2)
  /\
  (forall err,
      fst (root_xml git container_repr data w1) = Raise err ->
      fst (root_xml git container_repr data w2) = Raise err).
Proof.
  pose proof (root_xml_sim data w1 w2) as H.
  destruct (root_xml git container_repr data w1) as [[d1|e1] w1'],
           (root_xml git container_repr data w2) as [[d2|e2] w2'];
    cbn in H; try contradiction; split.
  - intros doc1 w Heq. inversion Heq; subst. exists d2, w2'.
    split; [reflexivity | exact H].
  - intros err Heq. discriminate Heq.
  - intros doc1 w Heq. discriminate Heq.
  - intros err Heq. cbn in *. congruence.
Qed.

End Properties.

(** ** The properties at concrete inputs *)

Lemma root_xml_without_multibranch_witness :
  dict_lookup "multibranch" config_no_multibranch = None /\
  root_xml git_wipe repr0 (PDict config_no_multibranch) world0 =
  (Ok bare_root, world0).
Proof.
  split; [reflexivity|].
  apply (root_xml_without_multibranch git_wipe repr0 config_no_multibranch
           world0).
  reflexivity.
Defined.

Lemma required_fields_lookup_errors_witness :
  fst (root_xml git_wipe repr0
         (PDict [("multibranch", PDict multibranch_no_spec)]) world0)
  = Raise (KeyError "periodic-folder-spec") /\
  fst (root_xml git_wipe repr0
         (PDict [("multibranch", PDict multibranch_no_interval)]) world0)
  = Raise (KeyError "periodic-folder-interval") /\
  fst (root_xml git_wipe repr0
         (PDict [("multibranch",
                  PDict (multibranch_with
                           [PStr "svn"; git_entry git_spec_no_url]))])
         world0)
  = Raise (KeyError "url") /\
  fst (root_xml git_wipe repr0
         (PDict [("multibranch",
                  PDict (multibranch_with
                           [git_entry git_spec0;
                            git_entry git_spec_no_credentials]))])
         world0)
  = Raise (KeyError "credentials-id") /\
  forall k, fst (root_xml git_wipe repr0 config0 world0)
            <> Raise (KeyError k).
Proof.
  split; [|split; [|split; [|split]]].
  - pose proof (proj1 (required_fields_lookup_errors git_wipe repr0
                         [("multibranch", PDict multibranch_no_spec)]
                         multibranch_no_spec world0 eq_refl) eq_refl) as H.
    rewrite H. reflexivity.
  - pose proof (proj1 (proj2 (required_fields_lookup_errors git_wipe repr0
                         [("multibranch", PDict multibranch_no_interval)]
                         multibranch_no_interval world0 eq_refl))) as H.
    rewrite H; [reflexivity | discriminate | reflexivity].
  - pose proof (proj1 (proj2 (proj2 (required_fields_lookup_errors
                         git_wipe repr0
                         [("multibranch",
                           PDict (multibranch_with
                                    [PStr "svn"; git_entry git_spec_no_url]))]
                         (multibranch_with
                            [PStr "svn"; git_entry git_spec_no_url])
                         world0 eq_refl)))) as H.
    refine (proj1 (H _ _ [PStr "svn"] [("git", PDict git_spec_no_url)]
                     git_spec_no_url [] (Element "data")
                     (logged (skip_notices repr0 (PStr "svn")) world0)
                     eq_refl eq_refl eq_refl) eq_refl);
      discriminate.
  - pose proof (proj1 (proj2 (proj2 (required_fields_lookup_errors
                         git_wipe repr0
                         [("multibranch",
                           PDict (multibranch_with
                                    [git_entry git_spec0;
                                     git_entry git_spec_no_credentials]))]
                         (multibranch_with
                            [git_entry git_spec0;
                             git_entry git_spec_no_credentials])
                         world0 eq_refl)))) as H.
    destruct (for_each (scm_step git_wipe repr0) [git_entry git_spec0]
                (Element "data") world0) as [[sd|e] w1] eqn:Hpre;
      [|vm_compute in Hpre; discriminate Hpre].
    refine (proj2 (H _ _ [git_entry git_spec0]
                     [("git", PDict git_spec_no_credentials)]
                     git_spec_no_credentials [] sd w1
                     eq_refl eq_refl Hpre) _ eq_refl);
      discriminate.
  - apply (proj2 (proj2 (proj2 (required_fields_lookup_errors git_wipe repr0
                         [("multibranch", PDict multibranch0)]
                         multibranch0 world0 eq_refl)))).
    + discriminate.
    + discriminate.
    + intros entries e g Hscm Hin Hg.
      inversion Hscm; subst entries; clear Hscm.
      destruct Hin as [Hin|[]]. inversion Hin; subst e; clear Hin.
      inversion Hg; subst g. split; discriminate.
Defined.

(** For a spec without [excludes] the [excludes] child does not follow
    [includes]: it is the first child of [source]. *)
Lemma git_source_excludes_first_counterexample :
  exists branch_source source,
    fst (generate_git_scm_xml git_nothing repr0
           (Element "jenkins.branch.BranchSource") (PDict git_spec0) world0)
    = Ok branch_source /\
    find "source" branch_source = Some source /\
    dict_lookup "excludes" git_spec0 = None /\
    map tag (children source) =
    ["excludes"; "id"; "remote"; "credentialsId";
     "ignoreOnPushNotifications"; "includes"] /\
    map tag (children source) <>
    ["id"; "remote"; "credentialsId"; "ignoreOnPushNotifications";
     "includes"; "excludes"].
Proof.
  eexists. eexists.
  split; [vm_compute; reflexivity|].
  split; [vm_compute; reflexivity|].
  split; [reflexivity|].
  split; [reflexivity | discriminate].
Qed.

Lemma git_source_children_witness :
  exists branch_source w' source,
    generate_git_scm_xml git_wipe repr0
      (Element "jenkins.branch.BranchSource")
      (PDict (("excludes", PStr "old/*") :: git_spec0)) world0
    = (Ok branch_source, w') /\
    children branch_source = [source] /\
    map tag (children source) =
    ["id"; "remote"; "credentialsId"; "ignoreOnPushNotifications";
     "includes"; "excludes"; "extensions"].
Proof.
  destruct (generate_git_scm_xml git_wipe repr0
              (Element "jenkins.branch.BranchSource")
              (PDict (("excludes", PStr "old/*") :: git_spec0)) world0)
    as [[bs|e] w'] eqn:H; [|vm_compute in H; discriminate H].
  destruct (git_source_children git_wipe repr0 _ _ _ _ _ H)
    as (source & u & c & it & tail & Hch & _ & _ & _ & _ & _ & _ & Hfields).
  exists bs, w', source. split; [reflexivity|]. split; [exact Hch|].
  cbn in Hfields.
  vm_compute in H. inversion H as [[Hbs Hw]]. clear H Hw.
  rewrite <- Hbs in Hch. cbn in Hch. inversion Hch as [Hsrc].
  reflexivity.
Defined.

Lemma childless_extensions_not_spliced_witness :
  exists temp_xml scm ext branch_source source,
    git_empty_extensions (Element "temp-git") (PDict git_spec0)
    = inl temp_xml /\
    find "scm" temp_xml = Some scm /\
    find "extensions" scm = Some ext /\
    generate_git_scm_xml git_empty_extensions repr0
      (Element "jenkins.branch.BranchSource") (PDict git_spec0) world0
    = (Ok branch_source, pop_uuid world0) /\
    children branch_source = [source] /\
    find "extensions" source = None.
Proof.
  destruct (childless_extensions_not_spliced git_empty_extensions repr0
              (Element "jenkins.branch.BranchSource") git_spec0 world0
              (PStr "https://x/y.git") (PStr "c1")
              (append
                 (append (Element "extensions")
                    (SubElement_text "configVersion" (PStr "2")
                       (set_attrib "class" "hudson.plugins.git.GitSCM"
                          (Element "scm"))))
                 (Element "temp-git"))
              (append (Element "extensions")
                 (SubElement_text "configVersion" (PStr "2")
                    (set_attrib "class" "hudson.plugins.git.GitSCM"
                       (Element "scm"))))
              (Element "extensions")
              eq_refl eq_refl eq_refl eq_refl eq_refl eq_refl)
    as (bs & source & H & Hch & _ & Hfind).
  eexists. eexists. eexists. exists bs, source.
  split; [reflexivity|]. split; [reflexivity|]. split; [reflexivity|].
  split; [exact H|]. split; [exact Hch | exact Hfind].
Defined.

Lemma branch_strategy_cases_witness :
  (exists bs w1 doc,
      scm_step git_nothing repr0 (Element "data") (git_entry git_spec0) world0
      = (Ok doc, w1) /\
      children doc = [bs] /\
      find "strategy" bs =
      Some (mkElement "strategy"
              [("class", "jenkins.branch.DefaultBranchPropertyStrategy")]
              PNone
              [mkElement "properties" [("class", "empty-list")] PNone []]))
  /\
  (exists bs w1 doc,
      scm_step git_nothing repr0 (Element "data")
        (git_entry git_spec_simple_strategy) world0
      = (Ok doc, w1) /\
      children doc = [bs] /\
      find "strategy" bs =
      Some (mkElement "strategy"
              [("class", "jenkins.branch.DefaultBranchPropertyStrategy")]
              PNone [no_trigger_list "properties"]))
  /\
  (exists bs w1 doc names,
      scm_step git_nothing repr0 (Element "data")
        (git_entry git_spec_exceptions) world0
      = (Ok doc, w1) /\
      children doc = [bs] /\
      find "strategy" bs =
      Some (mkElement "strategy"
              [("class",
                "jenkins.branch.NamedExceptionsBranchPropertyStrategy")]
              PNone
              [no_trigger_list "defaultProperties";
               mkElement "namedExceptions"
                 [("class", "java.util.Arrays$ArrayList")] PNone
                 [mkElement "a"
                    [("class",
                      "jenkins.branch.NamedExceptionsBranchPropertyStrategy$Named-array")]
                    PNone names]]) /\
      map (fun n => map text (children n)) names =
      [[PNone; PStr "release/1.0"]; [PNone; PStr "hotfix"]]).
Proof.
  split; [|split].
  - destruct (generate_git_scm_xml git_nothing repr0
                (Element "jenkins.branch.BranchSource") (PDict git_spec0)
                (logged [("git_data = "
                            ++ py_str repr0 (git_entry git_spec0))%string]
                   world0))
      as [[bs|e] w1] eqn:Hsrc; [|vm_compute in Hsrc; discriminate Hsrc].
    pose proof (proj1 (branch_strategy_cases git_nothing repr0
                         (Element "data") [("git", PDict git_spec0)]
                         git_spec0 world0 bs w1 eq_refl Hsrc) eq_refl) as H.
    eexists. exists w1. eexists. split; [exact H|].
    split; [reflexivity|].
    vm_compute in Hsrc. inversion Hsrc as [[Hbs Hw]]. reflexivity.
  - destruct (generate_git_scm_xml git_nothing repr0
                (Element "jenkins.branch.BranchSource")
                (PDict git_spec_simple_strategy)
                (logged [("git_data = "
                            ++ py_str repr0
                                 (git_entry git_spec_simple_strategy))%string]
                   world0))
      as [[bs|e] w1] eqn:Hsrc; [|vm_compute in Hsrc; discriminate Hsrc].
    pose proof (proj1 (proj2 (branch_strategy_cases git_nothing repr0
                         (Element "data")
                         [("git", PDict git_spec_simple_strategy)]
                         git_spec_simple_strategy world0 bs w1 eq_refl Hsrc))
                  [] eq_refl eq_refl) as H.
    eexists. eexists. eexists. split; [exact H|].
    split; [reflexivity|].
    vm_compute in Hsrc. inversion Hsrc as [[Hbs Hw]]. reflexivity.
  - destruct (generate_git_scm_xml git_nothing repr0
                (Element "jenkins.branch.BranchSource")
                (PDict git_spec_exceptions)
                (logged [("git_data = "
                            ++ py_str repr0
                                 (git_entry git_spec_exceptions))%string]
                   world0))
      as [[bs|e] w1] eqn:Hsrc; [|vm_compute in Hsrc; discriminate Hsrc].
    pose proof (proj2 (proj2 (branch_strategy_cases git_nothing repr0
                         (Element "data")
                         [("git", PDict git_spec_exceptions)]
                         git_spec_exceptions world0 bs w1 eq_refl Hsrc))
                  [("exceptions", PList [PStr "release/1.0"; PStr "hotfix"])]
                  [PStr "release/1.0"; PStr "hotfix"] eq_refl eq_refl) as H.
    eexists. eexists. eexists. eexists. split; [exact H|].
    split; [reflexivity|].
    vm_compute in Hsrc. inversion Hsrc as [[Hbs Hw]].
    split; reflexivity.
Defined.

(** With [prune-dead-branches] present and empty, the text of
    [pruneDeadBranches] is [none], not [false]. *)
Lemma prune_dead_branches_empty_counterexample :
  exists doc orphaned prune,
    dict_lookup "prune-dead-branches" multibranch_prune_empty = Some PNone /\
    fst (root_xml git_wipe repr0
           (PDict [("multibranch", PDict multibranch_prune_empty)]) world0)
    = Ok doc /\
    find "orphanedItemStrategy" doc = Some orphaned /\
    find "pruneDeadBranches" orphaned = Some prune /\
    text prune = PStr "none" /\
    text prune <> PStr "false".
Proof.
  eexists. eexists. eexists.
  split; [reflexivity|].
  split; [vm_compute; reflexivity|].
  split; [vm_compute; reflexivity|].
  split; [vm_compute; reflexivity|].
  split; [reflexivity | discriminate].
Qed.

Lemma orphaned_item_strategy_block_witness :
  exists doc orphaned,
    fst (root_xml git_wipe repr0
           (PDict [("multibranch", PDict multibranch_prune_true)]) world0)
    = Ok doc /\
    find "orphanedItemStrategy" doc = Some orphaned /\
    children orphaned =
    [mkElement "pruneDeadBranches" [] (PStr "true") [];
     mkElement "daysToKeep" [] (PStr "7") [];
     mkElement "numToKeep" [] (PStr "-1") []].
Proof.
  destruct (root_xml git_wipe repr0
              (PDict [("multibranch", PDict multibranch_prune_true)]) world0)
    as [[doc|e] w'] eqn:H; [|vm_compute in H; discriminate H].
  destruct (orphaned_item_strategy_block git_wipe repr0
              [("multibranch", PDict multibranch_prune_true)]
              multibranch_prune_true world0 doc w' eq_refl H)
    as (orphaned & prune_text & Hfind & Htext & Hch).
  exists doc, orphaned. split; [reflexivity|]. split; [exact Hfind|].
  rewrite (Htext (PBool true) eq_refl eq_refl) in Hch.
  exact Hch.
Defined.

Lemma two_builds_same_modulo_ids_witness :
  exists doc1 doc2,
    fst (root_xml git_wipe repr0 config0 world0) = Ok doc1 /\
    fst (root_xml git_wipe repr0 config0 world1) = Ok doc2 /\
    doc1 <> doc2 /\
    scrub_at id_path doc1 = scrub_at id_path doc2.
Proof.
  destruct (root_xml git_wipe repr0 config0 world0)
    as [[doc1|e] w1'] eqn:H1; [|vm_compute in H1; discriminate H1].
  destruct (proj1 (two_builds_same_modulo_ids git_wipe repr0 config0
                     world0 world1) doc1 w1' H1)
    as (doc2 & w2' & H2 & Heq).
  exists doc1, doc2. rewrite H2.
  split; [reflexivity|]. split; [reflexivity|]. split; [|exact Heq].
  vm_compute in H1. vm_compute in H2.
  inversion H1 as [[Hd1 Hw1]]. inversion H2 as [[Hd2 Hw2]].
  discriminate.
Defined.

Lemma git_value_not_a_mapping_witness :
  isinstance_dict (PStr "https://x/y.git") = false /\
  (forall sources_data w0,
      scm_step git_wipe repr0 sources_data (PDict entry_git_string) w0 =
      (Raise (AttributeError "get"),
       logged ["git_data = <container>"] w0)) /\
  root_xml git_wipe repr0
    (PDict [("multibranch",
             PDict (multibranch_with [PStr "svn"; PDict entry_git_string;
                                      git_entry git_spec0]))])
    world0
  = (Raise (AttributeError "get"),
     logged ["git_data = svn"; "We cannot process scm";
             "git_data = <container>"] world0).
Proof.
  pose proof (git_value_not_a_mapping git_wipe repr0
                [("multibranch",
                  PDict (multibranch_with
                           [PStr "svn"; PDict entry_git_string;
                            git_entry git_spec0]))]
                (multibranch_with
                   [PStr "svn"; PDict entry_git_string; git_entry git_spec0])
                [PStr "svn"; PDict entry_git_string; git_entry git_spec0]
                entry_git_string (PStr "https://x/y.git") world0
                eq_refl eq_refl (or_intror (or_introl eq_refl))
                eq_refl eq_refl) as (Hstep & _ & Hroot).
  split; [reflexivity|]. split; [exact Hstep|].
  rewrite (Hroot [PStr "svn"] [git_entry git_spec0] (Element "data")
             (logged (skip_notices repr0 (PStr "svn")) world0));
    [reflexivity | discriminate | discriminate | reflexivity | reflexivity].
Defined.

Lemma git_wipe_extensions_clean : git_extensions_clean git_wipe.
Proof.
  intros spec temp_xml scm ext Hg Hscm Hext.
  unfold git_wipe in Hg. inversion Hg; subst temp_xml; clear Hg.
  vm_compute in Hscm. inversion Hscm; subst scm; clear Hscm.
  vm_compute in Hext. inversion Hext; subst ext. reflexivity.
Qed.

Lemma scratch_node_removed_witness :
  git_extensions_clean git_wipe /\
  exists doc branch_source source,
    fst (root_xml git_wipe repr0 config0 world0) = Ok doc /\
    occurs "temp-git" doc = false /\
    fst (generate_git_scm_xml git_wipe repr0
           (Element "jenkins.branch.BranchSource") (PDict git_spec0) world0)
    = Ok branch_source /\
    children branch_source = [source] /\
    forallb (fun c => negb (String.eqb (tag c) "temp-git")) (children source)
    = true.
Proof.
  split; [exact git_wipe_extensions_clean|].
  destruct (root_xml git_wipe repr0 config0 world0)
    as [[doc|e] w'] eqn:H; [|vm_compute in H; discriminate H].
  destruct (generate_git_scm_xml git_wipe repr0
              (Element "jenkins.branch.BranchSource") (PDict git_spec0)
              world0)
    as [[bs|e] w1] eqn:Hg; [|vm_compute in Hg; discriminate Hg].
  destruct (proj1 (scratch_node_removed git_wipe repr0) _ _ _ _ _ Hg)
    as (source & Hch & _ & Hall).
  exists doc, bs, source. split; [reflexivity|].
  split.
  - exact (proj2 (scratch_node_removed git_wipe repr0)
             git_wipe_extensions_clean config0 world0 doc w' H).
  - split; [reflexivity|]. split; [exact Hch | exact Hall].
Defined.

(** An [scm] child without [extensions]: nothing is taken over and nothing
    is raised. *)
Example missing_extensions_example :
  exists branch_source source,
    fst (generate_git_scm_xml git_no_extensions repr0
           (Element "jenkins.branch.BranchSource") (PDict git_spec0) world0)
    = Ok branch_source /\
    children branch_source = [source] /\
    map tag (children source) =
    ["excludes"; "id"; "remote"; "credentialsId";
     "ignoreOnPushNotifications"; "includes"].
Proof.
  eexists. eexists. split; [vm_compute; reflexivity|].
  split; reflexivity.
Qed.

(** ** Further properties of the generated document *)

Section Document.

Variable git : element -> pyval -> element + string.
Variable container_repr : pyval -> string.

Local Abbreviation str := (py_str container_repr).

Lemma root_xml_triggers_tag project_def w triggers w' :
  root_xml_triggers project_def w = (Ok triggers, w') ->
  tag triggers = "triggers" /\ w' = w.
Proof.
  unfold root_xml_triggers. intros H. inv_all; split; reflexivity.
Qed.

Lemma root_xml_orphaned_item_strategy_tag project_def w orphaned w' :
  root_xml_orphaned_item_strategy container_repr project_def w
  = (Ok orphaned, w') ->
  tag orphaned = "orphanedItemStrategy" /\ w' = w.
Proof.
  unfold root_xml_orphaned_item_strategy. intros H.
  inv_all; split; reflexivity.
Qed.

Lemma root_xml_sources_tag project_def w sources w' :
  root_xml_sources git container_repr project_def w = (Ok sources, w') ->
  tag sources = "sources".
Proof.
  unfold root_xml_sources. intros H.
  apply bind_Ok_inv in H. destruct H as (hs & ? & _ & H).
  apply bind_Ok_inv in H. destruct H as (sd & ? & _ & H).
  apply ret_Ok_inv in H. destruct H as [-> _]. reflexivity.
Qed.

(** What a successful run on a record with [multibranch] went through. *)
Lemma root_xml_Ok_inv data w doc w' :
  root_xml git container_repr data w = (Ok doc, w') ->
  py_in "multibranch" data = Ok true ->
  exists project_def properties orphaned triggers sources,
    py_getitem data "multibranch" = Ok project_def /\
    root_xml_properties project_def w = (Ok properties, w) /\
    root_xml_orphaned_item_strategy container_repr project_def w
    = (Ok orphaned, w) /\
    root_xml_triggers project_def w = (Ok triggers, w) /\
    root_xml_sources git container_repr project_def w = (Ok sources, w') /\
    tag properties = "properties" /\
    tag orphaned = "orphanedItemStrategy" /\
    tag triggers = "triggers" /\
    tag sources = "sources" /\
    doc =
    mkElement
      "org.jenkinsci.plugins.workflow.multibranch.WorkflowMultiBranchProject"
      [("plugin", "workflow-multibranch")] PNone
      [properties; root_xml_views; root_xml_views_tab_bar;
       root_xml_health_metrics; root_xml_icon; orphaned; triggers; sources;
       root_xml_factory].
Proof.
  intros H Hin. unfold root_xml in H.
  unfold bind at 1 in H. unfold lift at 1 in H. rewrite Hin in H.
  cbn [negb] in H.
  apply bind_Ok_inv in H. destruct H as (pd & w0 & Hpd & H).
  apply lift_Ok_inv in Hpd. destruct Hpd as [Hpd ->].
  apply bind_Ok_inv in H. destruct H as (props & w1 & Hp & H).
  destruct (root_xml_properties_tag _ _ _ _ Hp) as [Hpt ->].
  apply bind_Ok_inv in H. destruct H as (orph & w2 & Ho & H).
  destruct (root_xml_orphaned_item_strategy_tag _ _ _ _ Ho) as [Hot ->].
  apply bind_Ok_inv in H. destruct H as (trig & w3 & Ht & H).
  destruct (root_xml_triggers_tag _ _ _ _ Ht) as [Htt ->].
  apply bind_Ok_inv in H. destruct H as (srcs & w4 & Hs & H).
  apply ret_Ok_inv in H. destruct H as [-> ->].
  exists pd, props, orph, trig, srcs.
  repeat (split; [assumption|]).
  split; [eapply root_xml_sources_tag; eassumption|]. reflexivity.
Qed.

(** X1: the top level of every document built from a record with
    [multibranch]:
    the root element with its [plugin] attribute and nine children in the
    order [properties], [views], [viewsTabBar], [healthMetrics], [icon],
    [orphanedItemStrategy], [triggers], [sources], [factory]; and the
    [viewsTabBar], [healthMetrics], [icon] and [factory] children are the
    same in every document, whatever the record. *)
Theorem document_top_level data w doc w' :
  root_xml git container_repr data w = (Ok doc, w') ->
  py_in "multibranch" data = Ok true ->
  tag doc =
  "org.jenkinsci.plugins.workflow.multibranch.WorkflowMultiBranchProject" /\
  attrib doc = [("plugin", "workflow-multibranch")] /\
  text doc = PNone /\
  map tag (children doc) =
  ["properties"; "views"; "viewsTabBar"; "healthMetrics"; "icon";
   "orphanedItemStrategy"; "triggers"; "sources"; "factory"] /\
  find "viewsTabBar" doc =
  Some (mkElement "viewsTabBar"
          [("class", "hudson.views.DefaultViewsTabBar")] PNone []) /\
  find "healthMetrics" doc =
  Some (mkElement "healthMetrics" [] PNone
          [mkElement
             "com.cloudbees.hudson.plugins.folder.health.WorstChildHealthMetric"
             [("plugin", "cloudbees-folder")] PNone []]) /\
  find "icon" doc =
  Some (mkElement "icon"
          [("class",
            "com.cloudbees.hudson.plugins.folder.icons.StockFolderIcon");
           ("plugin", "cloudbees-folder")] PNone []) /\
  find "factory" doc =
  Some (mkElement "factory"
          [("class",
            "org.jenkinsci.plugins.workflow.multibranch.WorkflowBranchProjectFactory")]
          PNone
          [mkElement "owner"
             [("class",
               "org.jenkinsci.plugins.workflow.multibranch.WorkflowMultiBranchProject");
              ("reference", "../..")] PNone []]).
Proof.
  intros H Hin.
  destruct (root_xml_Ok_inv _ _ _ _ H Hin)
    as (pd & props & orph & trig & srcs & _ & _ & _ & _ & _ &
        Hp & Ho & Ht & Hs & ->).
  unfold find. cbn [tag attrib text children map List.find].
  rewrite Hp, Ho, Ht, Hs.
  repeat split.
Qed.

Lemma root_xml_Ok_dict d md w doc w' :
  dict_lookup "multibranch" d = Some (PDict md) ->
  root_xml git container_repr (PDict d) w = (Ok doc, w') ->
  exists properties orphaned triggers sources,
    root_xml_properties (PDict md) w = (Ok properties, w) /\
    root_xml_triggers (PDict md) w = (Ok triggers, w) /\
    root_xml_sources git container_repr (PDict md) w = (Ok sources, w') /\
    tag properties = "properties" /\
    tag orphaned = "orphanedItemStrategy" /\
    tag triggers = "triggers" /\
    tag sources = "sources" /\
    doc =
    mkElement
      "org.jenkinsci.plugins.workflow.multibranch.WorkflowMultiBranchProject"
      [("plugin", "workflow-multibranch")] PNone
      [properties; root_xml_views; root_xml_views_tab_bar;
       root_xml_health_metrics; root_xml_icon; orphaned; triggers; sources;
       root_xml_factory].
Proof.
  intros Hmb H.
  assert (Hin : py_in "multibranch" (PDict d) = Ok true).
  { cbn. unfold dict_has. rewrite Hmb. reflexivity. }
  destruct (root_xml_Ok_inv _ _ _ _ H Hin)
    as (pd & props & orph & trig & srcs & Hpd & Hp & _ & Ht & Hs &
        Hpt & Hot & Htt & Hst & ->).
  cbn in Hpd. rewrite Hmb in Hpd. inversion Hpd; subst pd.
  exists props, orph, trig, srcs. repeat (split; [assumption|]).
  reflexivity.
Qed.

(** X2: a record with [multibranch] but without [scm]: the [sources] element
    holds an empty [data] element and the owner reference, there is no
    branch source, nothing is logged and no identifier is drawn. *)
Theorem document_without_scm d md w doc w' :
  dict_lookup "multibranch" d = Some (PDict md) ->
  dict_lookup "scm" md = None ->
  root_xml git container_repr (PDict d) w = (Ok doc, w') ->
  find "sources" doc =
  Some (mkElement "sources"
          [("class", "jenkins.branch.MultiBranchProject$BranchSourceList");
           ("plugin", "branch-api")]
          PNone
          [mkElement "data" [] PNone [];
           mkElement "owner"
             [("class",
               "org.jenkinsci.plugins.workflow.multibranch.WorkflowMultiBranchProject");
              ("reference", "../..")]
             PNone []]) /\
  branch_sources doc = [] /\
  w' = w.
Proof.
  intros Hmb Hscm H.
  destruct (root_xml_Ok_dict _ _ _ _ _ Hmb H)
    as (props & orph & trig & srcs & _ & _ & Hs & Hpt & Hot & Htt & _ & ->).
  rewrite root_xml_sources_no_scm in Hs by exact Hscm.
  inversion Hs; subst srcs w'; clear Hs.
  unfold branch_sources, find. cbn [children List.find].
  rewrite Hpt, Hot, Htt. repeat split.
Qed.

(** X3: the [properties] element of the document: the folder credentials
    placeholder, followed, when [env-properties] is given, by the
    environment property whose [properties] child has the value as its
    text, as it is. *)
Theorem document_properties d md w doc w' :
  dict_lookup "multibranch" d = Some (PDict md) ->
  root_xml git container_repr (PDict d) w = (Ok doc, w') ->
  find "properties" doc =
  Some (mkElement "properties" [] PNone
          ([mkElement
              "com.cloudbees.hudson.plugins.folder.properties.FolderCredentialsProvider_-FolderCredentialsProperty"
              [("plugin", "cloudbees-folder")] PNone
              [mkElement "domainCredentialsMap"
                 [("class", "hudson.util.CopyOnWriteMap$Hash")] PNone
                 [mkElement "entry" [] PNone
                    [mkElement
                       "com.cloudbees.plugins.credentials.domains.Domain"
                       [("plugin", "credentials")] PNone
                       [mkElement "specifications" [] PNone []];
                     mkElement "java.util.concurrent.CopyOnWriteArrayList"
                       [] PNone []]]]] ++
           match dict_lookup "env-properties" md with
           | Some v =>
               [mkElement
                  "com.cloudbees.hudson.plugins.folder.properties.EnvVarsFolderProperty"
                  [("plugin", "cloudbees-folders-plus")] PNone
                  [mkElement "properties" [] v []]]
           | None => []
           end)).
Proof.
  intros Hmb H.
  destruct (root_xml_Ok_dict _ _ _ _ _ Hmb H)
    as (props & orph & trig & srcs & Hp & _ & _ & Hpt & _ & _ & _ & ->).
  unfold find. cbn [children List.find]. rewrite Hpt.
  unfold root_xml_properties, bind, lift, ret in Hp.
  cbn [py_in py_getitem] in Hp. unfold dict_has in Hp.
  destruct (dict_lookup "env-properties" md);
    inversion Hp; reflexivity.
Qed.

(** X4: the [triggers] element of the document: when [timer-trigger] is
    given, a
    [TimerTrigger] whose [spec] is that value; then, always, the periodic
    folder trigger whose [spec] and [interval] are the values of
    [periodic-folder-spec] and [periodic-folder-interval], as they are. *)
Theorem document_triggers d md w doc w' :
  dict_lookup "multibranch" d = Some (PDict md) ->
  root_xml git container_repr (PDict d) w = (Ok doc, w') ->
  exists spec interval,
    dict_lookup "periodic-folder-spec" md = Some spec /\
    dict_lookup "periodic-folder-interval" md = Some interval /\
    find "triggers" doc =
    Some (mkElement "triggers" [] PNone
            (match dict_lookup "timer-trigger" md with
             | Some v =>
                 [mkElement "hudson.triggers.TimerTrigger" [] PNone
                    [mkElement "spec" [] v []]]
             | None => []
             end ++
             [mkElement
                "com.cloudbees.hudson.plugins.folder.computed.PeriodicFolderTrigger"
                [("plugin", "cloudbees-folder")] PNone
                [mkElement "spec" [] spec [];
                 mkElement "interval" [] interval []]])).
Proof.
  intros Hmb H.
  destruct (root_xml_Ok_dict _ _ _ _ _ Hmb H)
    as (props & orph & trig & srcs & _ & Ht & _ & Hpt & Hot & Htt & _ & ->).
  destruct (dict_lookup "periodic-folder-spec" md) as [spec|] eqn:Es.
  2:{ rewrite root_xml_triggers_no_spec in Ht by exact Es. discriminate Ht. }
  destruct (dict_lookup "periodic-folder-interval" md) as [itv|] eqn:Ei.
  2:{ rewrite (root_xml_triggers_no_interval _ _ spec) in Ht by assumption.
      discriminate Ht. }
  exists spec, itv. split; [reflexivity|]. split; [reflexivity|].
  unfold find. cbn [children List.find]. rewrite Hpt, Hot, Htt.
  cbn [tag String.eqb Ascii.eqb Bool.eqb].
  unfold root_xml_triggers, bind, lift, ret in Ht.
  cbn [py_in py_getitem] in Ht. unfold dict_has in Ht.
  rewrite Es, Ei in Ht.
  destruct (dict_lookup "timer-trigger" md);
    inversion Ht; subst trig; reflexivity.
Qed.

(** X5: when [multibranch] is there but is not a mapping, no document is
    built:
    a null, boolean or integer value raises [TypeError] at the first
    membership test, and a string or a list raises [TypeError] (when it
    contains [env-properties]) or the [AttributeError] of its missing [get]
    method. *)
Theorem multibranch_not_a_mapping d v w :
  dict_lookup "multibranch" d = Some v ->
  isinstance_dict v = false ->
  (is_scalar v = true ->
   root_xml git container_repr (PDict d) w = (Raise TypeError, w)) /\
  (is_scalar v = false ->
   py_in "env-properties" v = Ok true ->
   root_xml git container_repr (PDict d) w = (Raise TypeError, w)) /\
  (is_scalar v = false ->
   py_in "env-properties" v = Ok false ->
   root_xml git container_repr (PDict d) w
   = (Raise (AttributeError "get"), w)).
Proof.
  intros Hmb Hd. rewrite (root_xml_multibranch _ _ _ _ _ Hmb).
  split; [|split].
  - intros Hs. destruct v; try discriminate Hs; reflexivity.
  - intros Hs Hin. apply bind_Raise.
    unfold root_xml_properties, bind, lift. rewrite Hin.
    destruct v; try discriminate Hs; try discriminate Hd; reflexivity.
  - intros Hs Hin.
    assert (Hp : exists props, root_xml_properties v w = (Ok props, w)).
    { unfold root_xml_properties, bind, lift. rewrite Hin.
      eexists. reflexivity. }
    destruct Hp as [props Hp]. rewrite (bind_Ok _ _ _ _ _ Hp).
    apply bind_Raise.
    unfold root_xml_orphaned_item_strategy, bind, lift.
    destruct v as [| | | s | l | dd]; try discriminate Hs;
      try discriminate Hd; cbn [py_in py_get].
    + destruct (substring_of "prune-dead-branches" s); reflexivity.
    + destruct (existsb (is_str "prune-dead-branches") l); reflexivity.
Qed.

(** *** The branch sources *)

Lemma generate_source_strategy_Ok_inv xml_parent data w parent' w' :
  generate_source_strategy container_repr xml_parent data w
  = (Ok parent', w') ->
  exists strategy,
    parent' = append strategy xml_parent /\
    tag strategy = "strategy" /\
    entropy w' = entropy w.
Proof.
  intros H. destruct (py_in "exceptions" data) as [[|]|err] eqn:Hin.
  - destruct (py_getitem data "exceptions") as [x|err] eqn:Hx.
    + destruct (py_iter x) as [items|err] eqn:Hit.
      * rewrite (generate_source_strategy_named _ _ _ x items _ Hin Hx Hit)
          in H.
        inversion H. eexists. repeat split.
      * unfold generate_source_strategy, bind, lift in H.
        rewrite Hin in H. cbn in H. rewrite Hx, Hit in H. discriminate H.
    + unfold generate_source_strategy, bind, lift in H.
      rewrite Hin in H. cbn in H. rewrite Hx in H. discriminate H.
  - rewrite generate_source_strategy_simple in H by exact Hin.
    inversion H. eexists. repeat split.
  - unfold generate_source_strategy, bind, lift in H. rewrite Hin in H.
    discriminate H.
Qed.

(** What a step of the loop that returns has done. *)
Lemma scm_step_Ok_inv sources_data x w sources_data' w' :
  scm_step git container_repr sources_data x w = (Ok sources_data', w') ->
  (has_git x = false /\ sources_data' = sources_data /\
   forall n, entropy w' n = entropy w n)
  \/
  (has_git x = true /\
   exists branch_source,
     sources_data' = append branch_source sources_data /\
     tag branch_source = "jenkins.branch.BranchSource" /\
     map tag (children branch_source) = ["source"; "strategy"] /\
     source_text "id" branch_source = PStr (entropy w 0) /\
     source_text "remote" branch_source = entry_url x /\
     forall n, entropy w' n = entropy w (S n)).
Proof.
  intros H. destruct (has_git x) eqn:Hg.
  - right. split; [reflexivity|].
    destruct (has_git_inv _ Hg) as (e & gs & -> & Hgs).
    rewrite (scm_step_git _ _ _ _ _ _ Hgs) in H.
    apply bind_Ok_inv in H. destruct H as (bs0 & w1 & Hsrc & H).
    destruct (generate_git_scm_xml_Ok_inv _ _ _ _ _ _ _ Hsrc)
      as (g & u & c & t & -> & Hu & Hc & Ht).
    rewrite (generate_git_scm_xml_dict _ _ _ _ _ u c Hu Hc), Ht in Hsrc.
    inversion Hsrc; subst bs0 w1; clear Hsrc.
    apply bind_Ok_inv in H. destruct H as (hs & w2 & Hhs & H).
    apply lift_Ok_inv in Hhs. destruct Hhs as [_ ->].
    apply bind_Ok_inv in H. destruct H as (bs & w3 & Hbs & H).
    apply ret_Ok_inv in H. destruct H as [-> ->].
    assert (Hshape : exists strategy,
               bs = append strategy
                      (append
                         (mkElement "source"
                            [("class", "jenkins.plugins.git.GitSCMSource");
                             ("plugin", "git")] PNone
                            ((match dict_lookup "excludes" g with
                              | None => [Element "excludes"]
                              | Some _ => []
                              end) ++
                             [field "id"
                                (PStr (entropy
                                         (logged
                                            [("git_data = "
                                                ++ str (PDict e))%string] w)
                                         0));
                              field "remote" u;
                              field "credentialsId" c;
                              field "ignoreOnPushNotifications"
                                (PStr (lower (str (lookup_default
                                                     "ignore-on-push-notifications"
                                                     g (PBool true)))));
                              field "includes"
                                (lookup_default "includes" g (PStr "*"))] ++
                             (match dict_lookup "excludes" g with
                              | None => []
                              | Some x => [field "excludes" x]
                              end) ++
                             spliced t))
                         (Element "jenkins.branch.BranchSource")) /\
               tag strategy = "strategy" /\
               entropy w3 =
               entropy (pop_uuid
                          (logged [("git_data = " ++ str (PDict e))%string]
                             w))).
    { destruct hs.
      - apply bind_Ok_inv in Hbs. destruct Hbs as (st & w4 & Hst & Hbs).
        apply lift_Ok_inv in Hst. destruct Hst as [_ ->].
        apply generate_source_strategy_Ok_inv in Hbs.
        destruct Hbs as (node & -> & Hn & Hw). exists node.
        repeat split; assumption.
      - unfold generate_default_source_strategy, ret in Hbs.
        inversion Hbs. eexists. repeat split. }
    destruct Hshape as (node & -> & Hn & Hw).
    eexists. split; [reflexivity|].
    split; [reflexivity|].
    split; [cbn; rewrite Hn; reflexivity|].
    split; [|split].
    + unfold source_text, find. cbn [children app List.find tag].
      destruct (dict_lookup "excludes" g); reflexivity.
    + unfold source_text, find, entry_url, lookup_default.
      cbn [children app List.find tag]. rewrite Hgs, Hu.
      destruct (dict_lookup "excludes" g); reflexivity.
    + intros n. rewrite Hw. reflexivity.
  - left. rewrite scm_step_skip in H by exact Hg. inversion H.
    repeat split.
Qed.

Lemma for_each_scm_Ok entries :
  forall sources_data w sources_data' w',
    for_each (scm_step git container_repr) entries sources_data w
    = (Ok sources_data', w') ->
    exists bss,
      sources_data' =
      mkElement (tag sources_data) (attrib sources_data) (text sources_data)
                (children sources_data ++ bss) /\
      List.length bss = List.length (filter has_git entries) /\
      Forall (fun bs => tag bs = "jenkins.branch.BranchSource" /\
                        map tag (children bs) = ["source"; "strategy"]) bss /\
      map (source_text "remote") bss = map entry_url (filter has_git entries) /\
      map (source_text "id") bss =
      map (fun k => PStr (entropy w k)) (seq 0 (List.length bss)) /\
      forall n, entropy w' n = entropy w (List.length bss + n).
Proof.
  induction entries as [|x entries IH]; intros sd w sd' w' H.
  - cbn in H. inversion H; subst. exists []. rewrite app_nil_r.
    destruct sd'. repeat split. constructor.
  - cbn [for_each] in H. apply bind_Ok_inv in H.
    destruct H as (sd1 & w1 & Hx & H).
    destruct (IH _ _ _ _ H) as (bss & -> & Hlen & Hall & Hrem & Hid & Hw).
    destruct (scm_step_Ok_inv _ _ _ _ _ Hx)
      as [(Hg & -> & Hw1) | (Hg & bs & -> & Hbt & Hbc & Hbid & Hbrem & Hw1)].
    + exists bss. cbn [filter]. rewrite Hg.
      split; [reflexivity|]. split; [exact Hlen|]. split; [exact Hall|].
      split; [exact Hrem|]. split.
      * rewrite Hid. apply map_ext. intros k. rewrite Hw1. reflexivity.
      * intros n. rewrite Hw, Hw1. reflexivity.
    + exists (bs :: bss). cbn [filter]. rewrite Hg.
      split; [cbn; rewrite <- app_assoc; reflexivity|].
      split; [cbn; rewrite Hlen; reflexivity|].
      split; [constructor; [split; assumption | exact Hall]|].
      split; [cbn [map]; rewrite Hbrem, Hrem; reflexivity|].
      split.
      * cbn [map List.length seq]. rewrite Hbid, Hid. f_equal.
        rewrite <- seq_shift, map_map. apply map_ext.
        intros k. rewrite Hw1. reflexivity.
      * intros n. rewrite Hw, Hw1. reflexivity.
Qed.

Lemma root_xml_scm_Ok d md entries w doc w' :
  dict_lookup "multibranch" d = Some (PDict md) ->
  dict_lookup "scm" md = Some (PList entries) ->
  root_xml git container_repr (PDict d) w = (Ok doc, w') ->
  exists sources_data,
    for_each (scm_step git container_repr) entries (Element "data") w
    = (Ok sources_data, w') /\
    branch_sources doc = children sources_data.
Proof.
  intros Hmb Hscm H.
  destruct (root_xml_Ok_dict _ _ _ _ _ Hmb H)
    as (props & orph & trig & srcs & _ & _ & Hs & Hpt & Hot & Htt & _ & ->).
  rewrite (root_xml_sources_scm _ _ _ _ _ Hscm) in Hs.
  apply bind_Ok_inv in Hs. destruct Hs as (items & w1 & Hit & Hs).
  apply lift_Ok_inv in Hit. destruct Hit as [Hit ->].
  cbn in Hit. inversion Hit; subst items; clear Hit.
  apply bind_Ok_inv in Hs. destruct Hs as (sd & w1 & Hloop & Hs).
  apply ret_Ok_inv in Hs. destruct Hs as [-> ->].
  exists sd. split; [exact Hloop|].
  destruct (for_each_scm_Ok _ _ _ _ _ Hloop) as (bss & Hsd & _).
  unfold branch_sources, find. cbn [children List.find].
  rewrite Hpt, Hot, Htt. cbn [tag String.eqb Ascii.eqb Bool.eqb sources_node
                              children List.find].
  rewrite Hsd. reflexivity.
Qed.

(** X6: the branch sources of a document follow the scm entries: there is
    one
    for each entry that is a mapping with a [git] key, in the order of the
    entries (the [remote] texts are the [url]s of those entries, in order),
    and each is a [jenkins.branch.BranchSource] with exactly a [source]
    child followed by a [strategy] child. *)
Theorem branch_sources_follow_entries d md entries w doc w' :
  dict_lookup "multibranch" d = Some (PDict md) ->
  dict_lookup "scm" md = Some (PList entries) ->
  root_xml git container_repr (PDict d) w = (Ok doc, w') ->
  List.length (branch_sources doc) = List.length (filter has_git entries) /\
  Forall (fun bs => tag bs = "jenkins.branch.BranchSource" /\
                    map tag (children bs) = ["source"; "strategy"])
         (branch_sources doc) /\
  map (source_text "remote") (branch_sources doc)
  = map entry_url (filter has_git entries).
Proof.
  intros Hmb Hscm H.
  destruct (root_xml_scm_Ok _ _ _ _ _ _ Hmb Hscm H) as (sd & Hloop & ->).
  destruct (for_each_scm_Ok _ _ _ _ _ Hloop)
    as (bss & -> & Hlen & Hall & Hrem & _ & _).
  cbn [children app]. repeat split; assumption.
Qed.

(** X7: the identifiers of the git sources are the values of the random
    source
    in the order they are drawn: the k-th branch source has the k-th value,
    one value is drawn for each entry with a [git] key and none for the
    others, so the run leaves the random source advanced by exactly that
    number of values. *)
Theorem identifiers_drawn_in_order d md entries w doc w' :
  dict_lookup "multibranch" d = Some (PDict md) ->
  dict_lookup "scm" md = Some (PList entries) ->
  root_xml git container_repr (PDict d) w = (Ok doc, w') ->
  map (source_text "id") (branch_sources doc) =
  map (fun k => PStr (entropy w k))
      (seq 0 (List.length (filter has_git entries))) /\
  forall n,
    entropy w' n = entropy w (List.length (filter has_git entries) + n).
Proof.
  intros Hmb Hscm H.
  destruct (root_xml_scm_Ok _ _ _ _ _ _ Hmb Hscm H) as (sd & Hloop & ->).
  destruct (for_each_scm_Ok _ _ _ _ _ Hloop)
    as (bss & -> & Hlen & _ & _ & Hid & Hw).
  cbn [children app]. rewrite <- Hlen. split; assumption.
Qed.

(** C6: entries of the [scm] sequence that are not mappings or have no
    [git] key, and the entries around them.  The step of the loop for such
    an entry logs its two notices and leaves the [data] element as it was,
    raising nothing.  The outcome of [root_xml] (the document, or the error
    of an entry that is processed) is the one of the record without these
    entries.  When all entries are of this kind the document is returned,
    with an empty [data] element, after the notices of every entry.  And
    every document that is returned is complete: the root with its nine
    children, the [sources] element holding the [data] element and the owner
    reference, and in [data] one branch source for each of the other
    entries, in the order of the entries (the [remote] texts are their
    [url]s), each with its [source] and its [strategy]. *)
Theorem malformed_scm_entries_skipped d d' md md' entries w :
  dict_lookup "multibranch" d = Some (PDict md) ->
  dict_lookup "scm" md = Some (PList entries) ->
  dict_lookup "multibranch" d' = Some (PDict md') ->
  dict_lookup "scm" md' = Some (PList (filter has_git entries)) ->
  (forall k, k <> "scm" -> dict_lookup k md' = dict_lookup k md) ->
  (forall x sources_data w0,
      In x entries -> has_git x = false ->
      scm_step git container_repr sources_data x w0 =
      (Ok sources_data,
       logged [("git_data = " ++ str x)%string; "We cannot process scm"] w0))
  /\
  fst (root_xml git container_repr (PDict d) w)
  = fst (root_xml git container_repr (PDict d') w)
  /\
  (dict_lookup "periodic-folder-spec" md <> None ->
   dict_lookup "periodic-folder-interval" md <> None ->
   (forall x, In x entries -> has_git x = false) ->
   exists doc,
     root_xml git container_repr (PDict d) w =
     (Ok doc,
      logged (flat_map
                (fun x => [("git_data = " ++ str x)%string;
                           "We cannot process scm"]) entries) w) /\
     find "sources" doc = Some (sources_node (Element "data")))
  /\
  (forall doc w',
      root_xml git container_repr (PDict d) w = (Ok doc, w') ->
      (exists properties orphaned triggers,
          tag properties = "properties" /\
          tag orphaned = "orphanedItemStrategy" /\
          tag triggers = "triggers" /\
          doc =
          mkElement
            "org.jenkinsci.plugins.workflow.multibranch.WorkflowMultiBranchProject"
            [("plugin", "workflow-multibranch")] PNone
            [properties; root_xml_views; root_xml_views_tab_bar;
             root_xml_health_metrics; root_xml_icon; orphaned; triggers;
             mkElement "sources"
               [("class",
                 "jenkins.branch.MultiBranchProject$BranchSourceList");
                ("plugin", "branch-api")]
               PNone
               [mkElement "data" [] PNone (branch_sources doc);
                mkElement "owner"
                  [("class",
                    "org.jenkinsci.plugins.workflow.multibranch.WorkflowMultiBranchProject");
                   ("reference", "../..")]
                  PNone []];
             root_xml_factory]) /\
      List.length (branch_sources doc)
      = List.length (filter has_git entries) /\
      Forall (fun bs => tag bs = "jenkins.branch.BranchSource" /\
                        map tag (children bs) = ["source"; "strategy"])
             (branch_sources doc) /\
      map (source_text "remote") (branch_sources doc)
      = map entry_url (filter has_git entries)).
Proof.
  intros Hmb Hscm Hmb' Hscm' Hsame.
  destruct (skipped_entries_same_outcome git container_repr d d' md md'
              entries w Hmb Hscm Hmb' Hscm' Hsame) as (H1 & H2 & H3).
  split; [exact H1|]. split; [exact H2|]. split; [exact H3|].
  intros doc w' H.
  destruct (root_xml_Ok_dict _ _ _ _ _ Hmb H)
    as (props & orph & trig & srcs & _ & _ & Hs & Hpt & Hot & Htt & _ & ->).
  rewrite (root_xml_sources_scm _ _ _ _ _ Hscm) in Hs.
  apply bind_Ok_inv in Hs. destruct Hs as (items & w1 & Hit & Hs).
  apply lift_Ok_inv in Hit. destruct Hit as [Hit ->].
  cbn in Hit. inversion Hit; subst items; clear Hit.
  apply bind_Ok_inv in Hs. destruct Hs as (sd & w1 & Hloop & Hs).
  apply ret_Ok_inv in Hs. destruct Hs as [-> ->].
  destruct (for_each_scm_Ok _ _ _ _ _ Hloop)
    as (bss & -> & Hlen & Hall & Hrem & _ & _).
  assert (Hbs : branch_sources
                  (mkElement
                     "org.jenkinsci.plugins.workflow.multibranch.WorkflowMultiBranchProject"
                     [("plugin", "workflow-multibranch")] PNone
                     [props; root_xml_views; root_xml_views_tab_bar;
                      root_xml_health_metrics; root_xml_icon; orph; trig;
                      sources_node
                        (mkElement (tag (Element "data"))
                           (attrib (Element "data")) (text (Element "data"))
                           (children (Element "data") ++ bss));
                      root_xml_factory]) = bss).
  { unfold branch_sources, find. cbn [children List.find].
    rewrite Hpt, Hot, Htt. reflexivity. }
  rewrite Hbs.
  split; [|split; [exact Hlen | split; [exact Hall | exact Hrem]]].
  exists props, orph, trig. repeat (split; [assumption|]). reflexivity.
Qed.

(** *** Errors inside the loop *)

(** An exception raised by the step for an entry, after the entries before
    it were processed, is the outcome of the run. *)
Lemma root_xml_entry_raises d md pre x post sources_data w w1 err w2 :
  dict_lookup "multibranch" d = Some (PDict md) ->
  dict_lookup "periodic-folder-spec" md <> None ->
  dict_lookup "periodic-folder-interval" md <> None ->
  dict_lookup "scm" md = Some (PList (pre ++ x :: post)) ->
  for_each (scm_step git container_repr) pre (Element "data") w
  = (Ok sources_data, w1) ->
  scm_step git container_repr sources_data x w1 = (Raise err, w2) ->
  root_xml git container_repr (PDict d) w = (Raise err, w2).
Proof.
  intros Hmb Hs Hi Hscm Hpre Hx.
  destruct (dict_lookup "periodic-folder-spec" md) as [spec|] eqn:Es;
    [|congruence].
  destruct (dict_lookup "periodic-folder-interval" md) as [itv|] eqn:Ei;
    [|congruence].
  destruct (root_xml_scm_list git container_repr d md spec itv _
              Hmb Es Ei Hscm)
    as (p' & o' & t' & _ & _ & _ & Hroot).
  rewrite Hroot. apply bind_Raise.
  rewrite for_each_app. rewrite (bind_Ok _ _ _ _ _ Hpre).
  cbn [for_each]. apply bind_Raise. exact Hx.
Qed.

(** X8: an exception raised by the collaborator while it fills the scratch
    element ends the run: no document is returned, the error is the
    collaborator's, the identifier of that source has been drawn and only
    the first notice of the entry has been logged. *)
Theorem collaborator_error_aborts d md pre e g post sources_data w w1 what :
  dict_lookup "multibranch" d = Some (PDict md) ->
  dict_lookup "periodic-folder-spec" md <> None ->
  dict_lookup "periodic-folder-interval" md <> None ->
  dict_lookup "scm" md = Some (PList (pre ++ PDict e :: post)) ->
  for_each (scm_step git container_repr) pre (Element "data") w
  = (Ok sources_data, w1) ->
  dict_lookup "git" e = Some (PDict g) ->
  dict_lookup "url" g <> None ->
  dict_lookup "credentials-id" g <> None ->
  git (Element "temp-git") (PDict g) = inr what ->
  root_xml git container_repr (PDict d) w =
  (Raise (CollaboratorError what),
   pop_uuid (logged [("git_data = " ++ str (PDict e))%string] w1)).
Proof.
  intros Hmb Hs Hi Hscm Hpre Hg Hu Hc Hgit.
  eapply root_xml_entry_raises; try eassumption.
  rewrite (scm_step_git git container_repr _ _ _ _ Hg).
  apply bind_Raise.
  destruct (dict_lookup "url" g) as [u|] eqn:Eu; [|congruence].
  destruct (dict_lookup "credentials-id" g) as [c|] eqn:Ec; [|congruence].
  rewrite (generate_git_scm_xml_dict git container_repr _ _ _ u c Eu Ec).
  rewrite Hgit. reflexivity.
Qed.

(** X9: a [strategy] key whose value is null, a boolean or an integer (as in
    [strategy:] with nothing after the colon) ends the run with a
    [TypeError]: the source has been generated, but the membership test on
    the strategy value fails and no document is returned. *)
Theorem scalar_strategy_aborts d md pre e g post sources_data w w1 v temp_xml :
  dict_lookup "multibranch" d = Some (PDict md) ->
  dict_lookup "periodic-folder-spec" md <> None ->
  dict_lookup "periodic-folder-interval" md <> None ->
  dict_lookup "scm" md = Some (PList (pre ++ PDict e :: post)) ->
  for_each (scm_step git container_repr) pre (Element "data") w
  = (Ok sources_data, w1) ->
  dict_lookup "git" e = Some (PDict g) ->
  dict_lookup "url" g <> None ->
  dict_lookup "credentials-id" g <> None ->
  git (Element "temp-git") (PDict g) = inl temp_xml ->
  dict_lookup "strategy" g = Some v ->
  is_scalar v = true ->
  root_xml git container_repr (PDict d) w =
  (Raise TypeError,
   pop_uuid (logged [("git_data = " ++ str (PDict e))%string] w1)).
Proof.
  intros Hmb Hs Hi Hscm Hpre Hg Hu Hc Hgit Hst Hv.
  eapply root_xml_entry_raises; try eassumption.
  rewrite (scm_step_git git container_repr _ _ _ _ Hg).
  destruct (dict_lookup "url" g) as [u|] eqn:Eu; [|congruence].
  destruct (dict_lookup "credentials-id" g) as [c|] eqn:Ec; [|congruence].
  erewrite bind_Ok
    by (rewrite (generate_git_scm_xml_dict git container_repr _ _ _ u c
                   Eu Ec), Hgit; reflexivity).
  unfold bind at 1. unfold lift at 1. cbn [py_in]. unfold dict_has.
  rewrite Hst. apply bind_Raise.
  unfold bind, lift. cbn [py_getitem]. rewrite Hst.
  unfold generate_source_strategy, bind, lift.
  destruct v; try discriminate Hv; reflexivity.
Qed.

(** X10: the strategy of a spec whose [exceptions] is an ASCII string: the
    loop visits the string character by character, so there is one named
    exception per character, each named by that one character. *)
Theorem exceptions_string_per_character xml_parent s name w :
  dict_lookup "exceptions" s = Some (PStr name) ->
  is_ascii name = true ->
  exists strategy named_exceptions a,
    fst (generate_source_strategy container_repr xml_parent (PDict s) w)
    = Ok (append strategy xml_parent) /\
    find "namedExceptions" strategy = Some named_exceptions /\
    find "a" named_exceptions = Some a /\
    List.length (children a) = String.length name /\
    map (fun n => match find "name" n with
                  | Some c => text c
                  | None => PNone
                  end) (children a)
    = chars name.
Proof.
  intros Hex _.
  rewrite (generate_source_strategy_named container_repr xml_parent
             (PDict s) (PStr name) (chars name) w).
  - eexists. eexists. eexists. split; [reflexivity|].
    split; [reflexivity|]. split; [reflexivity|].
    cbn [children]. rewrite length_map, map_map. cbn.
    split.
    + clear Hex. induction name as [|ch name IH]; [reflexivity|].
      cbn. rewrite IH. reflexivity.
    + apply map_id.
  - cbn. unfold dict_has. rewrite Hex. reflexivity.
  - cbn. rewrite Hex. reflexivity.
  - reflexivity.
Qed.

End Document.

(** ** The further properties at concrete inputs *)

Lemma document_top_level_witness :
  exists doc,
    fst (root_xml git_wipe repr0 config0 world0) = Ok doc /\
    map tag (children doc) =
    ["properties"; "views"; "viewsTabBar"; "healthMetrics"; "icon";
     "orphanedItemStrategy"; "triggers"; "sources"; "factory"].
Proof.
  destruct (root_xml git_wipe repr0 config0 world0)
    as [[doc|e] w'] eqn:H; [|vm_compute in H; discriminate H].
  exists doc. split; [reflexivity|].
  exact (proj1 (proj2 (proj2 (proj2
           (document_top_level git_wipe repr0 config0 world0 doc w' H
              eq_refl))))).
Defined.

Lemma document_without_scm_witness :
  exists doc,
    root_xml git_wipe repr0 (PDict [("multibranch", PDict multibranch_env)])
      world0 = (Ok doc, world0) /\
    branch_sources doc = [].
Proof.
  destruct (root_xml git_wipe repr0
              (PDict [("multibranch", PDict multibranch_env)]) world0)
    as [[doc|e] w'] eqn:H; [|vm_compute in H; discriminate H].
  destruct (document_without_scm git_wipe repr0
              [("multibranch", PDict multibranch_env)] multibranch_env
              world0 doc w' eq_refl eq_refl H) as (_ & Hbs & ->).
  exists doc. split; [reflexivity | exact Hbs].
Defined.

Lemma document_properties_witness :
  exists doc properties env,
    fst (root_xml git_wipe repr0
           (PDict [("multibranch", PDict multibranch_env)]) world0)
    = Ok doc /\
    find "properties" doc = Some properties /\
    nth_error (children properties) 1 = Some env /\
    map text (children env) = [PStr "STAGE=dev"].
Proof.
  destruct (root_xml git_wipe repr0
              (PDict [("multibranch", PDict multibranch_env)]) world0)
    as [[doc|e] w'] eqn:H; [|vm_compute in H; discriminate H].
  pose proof (document_properties git_wipe repr0
                [("multibranch", PDict multibranch_env)] multibranch_env
                world0 doc w' eq_refl H) as Hp.
  exists doc. eexists. eexists. split; [reflexivity|].
  split; [exact Hp|]. split; reflexivity.
Defined.

Lemma document_triggers_witness :
  exists doc triggers,
    fst (root_xml git_wipe repr0
           (PDict [("multibranch", PDict multibranch_env)]) world0)
    = Ok doc /\
    find "triggers" doc = Some triggers /\
    map tag (children triggers) =
    ["hudson.triggers.TimerTrigger";
     "com.cloudbees.hudson.plugins.folder.computed.PeriodicFolderTrigger"].
Proof.
  destruct (root_xml git_wipe repr0
              (PDict [("multibranch", PDict multibranch_env)]) world0)
    as [[doc|e] w'] eqn:H; [|vm_compute in H; discriminate H].
  destruct (document_triggers git_wipe repr0
              [("multibranch", PDict multibranch_env)] multibranch_env
              world0 doc w' eq_refl H) as (spec & itv & _ & _ & Ht).
  exists doc. eexists. split; [reflexivity|].
  split; [exact Ht | reflexivity].
Defined.

Lemma multibranch_not_a_mapping_witness :
  root_xml git_wipe repr0 (PDict [("multibranch", PNone)]) world0
  = (Raise TypeError, world0) /\
  root_xml git_wipe repr0
    (PDict [("multibranch", PStr "env-properties: a")]) world0
  = (Raise TypeError, world0) /\
  root_xml git_wipe repr0 (PDict [("multibranch", PList [])]) world0
  = (Raise (AttributeError "get"), world0).
Proof.
  split; [|split].
  - apply (proj1 (multibranch_not_a_mapping git_wipe repr0
                    [("multibranch", PNone)] PNone world0
                    eq_refl eq_refl)).
    reflexivity.
  - apply (proj1 (proj2 (multibranch_not_a_mapping git_wipe repr0
                    [("multibranch", PStr "env-properties: a")]
                    (PStr "env-properties: a") world0 eq_refl eq_refl)));
      reflexivity.
  - apply (proj2 (proj2 (multibranch_not_a_mapping git_wipe repr0
                    [("multibranch", PList [])] (PList []) world0
                    eq_refl eq_refl)));
      reflexivity.
Defined.

Lemma branch_sources_follow_entries_witness :
  exists doc,
    fst (root_xml git_wipe repr0
           (PDict [("multibranch", PDict (multibranch_with entries_two))])
           world0) = Ok doc /\
    List.length (branch_sources doc) = 2 /\
    map (source_text "remote") (branch_sources doc) =
    [PStr "https://x/z.git"; PStr "https://x/y.git"].
Proof.
  destruct (root_xml git_wipe repr0
              (PDict [("multibranch", PDict (multibranch_with entries_two))])
              world0)
    as [[doc|e] w'] eqn:H; [|vm_compute in H; discriminate H].
  destruct (branch_sources_follow_entries git_wipe repr0
              [("multibranch", PDict (multibranch_with entries_two))]
              (multibranch_with entries_two) entries_two
              world0 doc w' eq_refl eq_refl H) as (Hlen & _ & Hrem).
  exists doc. split; [reflexivity|]. split; [exact Hlen | exact Hrem].
Defined.

Lemma identifiers_drawn_in_order_witness :
  exists doc w',
    root_xml git_wipe repr0
      (PDict [("multibranch", PDict (multibranch_with entries_two))])
      world0 = (Ok doc, w') /\
    map (source_text "id") (branch_sources doc) =
    [PStr "uuid-0"; PStr "uuid-1"] /\
    entropy w' 0 = "uuid-2".
Proof.
  destruct (root_xml git_wipe repr0
              (PDict [("multibranch", PDict (multibranch_with entries_two))])
              world0)
    as [[doc|e] w'] eqn:H; [|vm_compute in H; discriminate H].
  destruct (identifiers_drawn_in_order git_wipe repr0
              [("multibranch", PDict (multibranch_with entries_two))]
              (multibranch_with entries_two) entries_two
              world0 doc w' eq_refl eq_refl H) as (Hid & Hw).
  exists doc, w'. split; [reflexivity|]. split; [exact Hid|].
  rewrite Hw. reflexivity.
Defined.

Lemma collaborator_error_aborts_witness :
  fst (root_xml git_failing repr0
         (PDict [("multibranch",
                  PDict (multibranch_with
                           [PStr "svn"; git_entry git_spec0]))])
         world0)
  = Raise (CollaboratorError "JenkinsJobsException").
Proof.
  rewrite (collaborator_error_aborts git_failing repr0
             [("multibranch",
               PDict (multibranch_with [PStr "svn"; git_entry git_spec0]))]
             (multibranch_with [PStr "svn"; git_entry git_spec0])
             [PStr "svn"] [("git", PDict git_spec0)] git_spec0 []
             (Element "data") world0
             (logged (skip_notices repr0 (PStr "svn")) world0)
             "JenkinsJobsException");
    try reflexivity; discriminate.
Defined.

Lemma scalar_strategy_aborts_witness :
  fst (root_xml git_nothing repr0
         (PDict [("multibranch",
                  PDict (multibranch_with
                           [git_entry git_spec_strategy_null]))])
         world0)
  = Raise TypeError.
Proof.
  rewrite (scalar_strategy_aborts git_nothing repr0
             [("multibranch",
               PDict (multibranch_with [git_entry git_spec_strategy_null]))]
             (multibranch_with [git_entry git_spec_strategy_null])
             [] [("git", PDict git_spec_strategy_null)]
             git_spec_strategy_null []
             (Element "data") world0 world0 PNone (Element "temp-git"));
    try reflexivity; discriminate.
Defined.

Lemma exceptions_string_per_character_witness :
  exists strategy named_exceptions a,
    fst (generate_source_strategy repr0
           (Element "jenkins.branch.BranchSource")
           (PDict [("exceptions", PStr "dev")]) world0)
    = Ok (append strategy (Element "jenkins.branch.BranchSource")) /\
    find "namedExceptions" strategy = Some named_exceptions /\
    find "a" named_exceptions = Some a /\
    List.length (children a) = 3 /\
    map (fun n => match find "name" n with
                  | Some c => text c
                  | None => PNone
                  end) (children a)
    = [PStr "d"; PStr "e"; PStr "v"].
Proof.
  exact (exceptions_string_per_character repr0
           (Element "jenkins.branch.BranchSource")
           [("exceptions", PStr "dev")] "dev" world0 eq_refl eq_refl).
Defined.

Lemma nonempty_extensions_spliced_witness :
  exists branch_source source ext,
    fst (generate_git_scm_xml git_wipe repr0
           (Element "jenkins.branch.BranchSource") (PDict git_spec0) world0)
    = Ok branch_source /\
    children branch_source = [source] /\
    find "extensions" source = Some ext /\
    map tag (children ext) =
    ["hudson.plugins.git.extensions.impl.WipeWorkspace"].
Proof.
  destruct (nonempty_extensions_spliced git_wipe repr0
              (Element "jenkins.branch.BranchSource") git_spec0 world0
              (PStr "https://x/y.git") (PStr "c1")
              (append
                 (append
                    (append
                       (Element
                          "hudson.plugins.git.extensions.impl.WipeWorkspace")
                       (Element "extensions"))
                    (SubElement_text "configVersion" (PStr "2")
                       (set_attrib "class" "hudson.plugins.git.GitSCM"
                          (Element "scm"))))
                 (Element "temp-git"))
              (append
                 (append
                    (Element
                       "hudson.plugins.git.extensions.impl.WipeWorkspace")
                    (Element "extensions"))
                 (SubElement_text "configVersion" (PStr "2")
                    (set_attrib "class" "hudson.plugins.git.GitSCM"
                       (Element "scm"))))
              (append
                 (Element "hudson.plugins.git.extensions.impl.WipeWorkspace")
                 (Element "extensions"))
              eq_refl eq_refl eq_refl eq_refl eq_refl)
    as (bs & source & fields & H & Hch & _ & Hfind & _).
  { discriminate. }
  exists bs, source. eexists. rewrite H.
  split; [reflexivity|]. split; [exact Hch|]. split; [exact Hfind|].
  reflexivity.
Defined.

Lemma missing_extensions_not_spliced_witness :
  exists branch_source source,
    fst (generate_git_scm_xml git_no_extensions repr0
           (Element "jenkins.branch.BranchSource") (PDict git_spec0) world0)
    = Ok branch_source /\
    children branch_source = [source] /\
    find "extensions" source = None.
Proof.
  destruct (missing_extensions_not_spliced git_no_extensions repr0
              (Element "jenkins.branch.BranchSource") git_spec0 world0
              (PStr "https://x/y.git") (PStr "c1")
              (append
                 (SubElement_text "configVersion" (PStr "2")
                    (set_attrib "class" "hudson.plugins.git.GitSCM"
                       (Element "scm")))
                 (Element "temp-git"))
              (SubElement_text "configVersion" (PStr "2")
                 (set_attrib "class" "hudson.plugins.git.GitSCM"
                    (Element "scm")))
              eq_refl eq_refl eq_refl eq_refl eq_refl)
    as (bs & source & H & Hch & Hfind).
  exists bs, source. rewrite H.
  split; [reflexivity|]. split; [exact Hch | exact Hfind].
Defined.

Lemma malformed_scm_entries_skipped_witness :
  (forall x sources_data w0,
      In x entries_mixed -> has_git x = false ->
      scm_step git_wipe repr0 sources_data x w0 =
      (Ok sources_data,
       logged [("git_data = " ++ py_str repr0 x)%string;
               "We cannot process scm"] w0))
  /\
  fst (root_xml git_wipe repr0
         (PDict [("multibranch", PDict (multibranch_with entries_mixed))])
         world0)
  = fst (root_xml git_wipe repr0 config0 world0)
  /\
  (exists doc,
      root_xml git_wipe repr0
        (PDict [("multibranch", PDict (multibranch_with entries_skipped))])
        world0
      = (Ok doc,
         logged ["git_data = svn"; "We cannot process scm";
                 "git_data = <container>"; "We cannot process scm"] world0) /\
      find "sources" doc = Some (sources_node (Element "data")))
  /\
  (exists doc,
      fst (root_xml git_wipe repr0
             (PDict [("multibranch", PDict (multibranch_with entries_mixed))])
             world0) = Ok doc /\
      map tag (children doc) =
      ["properties"; "views"; "viewsTabBar"; "healthMetrics"; "icon";
       "orphanedItemStrategy"; "triggers"; "sources"; "factory"] /\
      List.length (branch_sources doc) = 1 /\
      map (source_text "remote") (branch_sources doc)
      = [PStr "https://x/y.git"]).
Proof.
  assert (Hsame : forall entries k,
             k <> "scm" ->
             dict_lookup k (multibranch_with entries)
             = dict_lookup k (multibranch_with entries_mixed)).
  { intros entries k Hk. cbn.
    destruct (String.eqb k "periodic-folder-spec"); [reflexivity|].
    destruct (String.eqb k "periodic-folder-interval"); [reflexivity|].
    destruct (String.eqb k "scm") eqn:E; [|reflexivity].
    apply String.eqb_eq in E. contradiction. }
  destruct (malformed_scm_entries_skipped git_wipe repr0
              [("multibranch", PDict (multibranch_with entries_mixed))]
              [("multibranch", PDict multibranch0)]
              (multibranch_with entries_mixed) multibranch0 entries_mixed
              world0 eq_refl eq_refl eq_refl eq_refl
              (Hsame [git_entry git_spec0]))
    as (H1 & H2 & _ & H4).
  split; [exact H1|]. split; [exact H2|]. split.
  - apply (malformed_scm_entries_skipped git_wipe repr0
             [("multibranch", PDict (multibranch_with entries_skipped))]
             [("multibranch", PDict (multibranch_with []))]
             (multibranch_with entries_skipped) (multibranch_with [])
             entries_skipped world0 eq_refl eq_refl eq_refl eq_refl).
    + intros k Hk. cbn.
      destruct (String.eqb k "periodic-folder-spec"); [reflexivity|].
      destruct (String.eqb k "periodic-folder-interval"); [reflexivity|].
      destruct (String.eqb k "scm") eqn:E; [|reflexivity].
      apply String.eqb_eq in E. contradiction.
    + discriminate.
    + discriminate.
    + intros x [<-|[<-|[]]]; reflexivity.
  - destruct (root_xml git_wipe repr0
                (PDict [("multibranch",
                         PDict (multibranch_with entries_mixed))]) world0)
      as [[doc|e] w'] eqn:H; [|vm_compute in H; discriminate H].
    destruct (H4 doc w' eq_refl)
      as ((props & orph & trig & Hp & Ho & Ht & Hdoc) & Hlen & _ & Hrem).
    exists doc. split; [reflexivity|].
    split; [|split; [exact Hlen | exact Hrem]].
    rewrite Hdoc. cbn [children map tag]. rewrite Hp, Ho, Ht. reflexivity.
Defined.
